(** * Meditation cog: scheduler, day attribution, streaks and check-ins

    A shallow embedding of [meditation/__init__.py] (class [MeditationCog])
    and the properties its specification states about it.

    Conventions of the embedding.
    - A [datetime.timedelta] is its exact number of microseconds (an
      integer, as Python normalises it to days/seconds/microseconds).
    - An aware [datetime.datetime] is the record of its wall-clock fields
      and its UTC offset; [datetime.date] is the proleptic day number
      ([date.toordinal]).  Python bounds years to 1..9999; the embedding
      does not, so the [OverflowError] at the ends of that range is out of
      its scope.
    - The SQLite table [meditation_records] has the primary key
      [(user_id, meditation_date)]: its state is a finite set of rows.
    - Code that mutates [self] and may raise runs in a state-and-exception
      monad whose state survives a raise, as a Python object does. *)

From Stdlib Require Import ZArith Lia String Ascii List.
From stdpp Require Import base tactics option list sorting gmap.

Open Scope Z_scope.

(** ** [datetime.timedelta] *)

Abbreviation timedelta := Z.

Definition US_PER_SECOND : Z := 1000000.
Definition US_PER_MINUTE : Z := 60 * US_PER_SECOND.
Definition US_PER_HOUR : Z := 60 * US_PER_MINUTE.
Definition US_PER_DAY : Z := 24 * US_PER_HOUR.

(** [timedelta.days]: Python keeps [0 <= seconds < 86400] and
    [0 <= microseconds < 10^6], so [days] is the floor of the quotient. *)
Definition days (td : timedelta) : Z := td / US_PER_DAY.

(** [td.total_seconds() < n] and [td.total_seconds() > n] for a threshold
    [n] that is a whole number of seconds.  [total_seconds] is the
    correctly rounded quotient of two integers ([us / 10**6]); the
    thresholds of this program (300, 84600.0 and 86400) are doubles, rounding
    is monotone and fixes them, and a microsecond is far more than the gap
    between neighbouring doubles at these magnitudes, so the float
    comparison decides exactly the integer comparison below. *)
Definition total_seconds_lt (td : timedelta) (n : Z) : bool :=
  td <? n * US_PER_SECOND.
Definition total_seconds_gt (td : timedelta) (n : Z) : bool :=
  n * US_PER_SECOND <? td.

(** ** [datetime.datetime] and [datetime.date] *)

Abbreviation date := Z.

Record datetime : Type := mk_datetime {
  ordinal : date;          (* [dt.date().toordinal()] *)
  hour : Z;
  minute : Z;
  second : Z;
  microsecond : Z;
  utcoffset : timedelta    (* [dt.utcoffset()], east of UTC positive *)
}.

(** The fields Python guarantees of every [datetime] object. *)
Definition wf_datetime (dt : datetime) : Prop :=
  0 <= hour dt < 24 /\ 0 <= minute dt < 60 /\ 0 <= second dt < 60 /\
  0 <= microsecond dt < US_PER_SECOND /\
  - US_PER_DAY < utcoffset dt < US_PER_DAY.

(** Wall-clock microseconds since day 0, 00:00, in the datetime's own zone. *)
Definition wall_clock (dt : datetime) : Z :=
  (((ordinal dt * 24 + hour dt) * 60 + minute dt) * 60 + second dt)
    * US_PER_SECOND + microsecond dt.

(** The absolute instant: microseconds since day 0, 00:00 UTC.  Aware
    datetimes are compared and subtracted through it. *)
Definition instant (dt : datetime) : Z := wall_clock dt - utcoffset dt.

(** The datetime that shows instant [t] on a clock [off] east of UTC. *)
Definition of_instant (t : Z) (off : timedelta) : datetime :=
  let l := t + off in
  let r := l mod US_PER_DAY in
  {| ordinal := l / US_PER_DAY;
     hour := r / US_PER_HOUR;
     minute := (r / US_PER_MINUTE) mod 60;
     second := (r / US_PER_SECOND) mod 60;
     microsecond := r mod US_PER_SECOND;
     utcoffset := off |}.

(** [dt.astimezone(pytz.UTC)] *)
Definition astimezone_UTC (dt : datetime) : datetime :=
  of_instant (instant dt) 0.

(** [dt.replace(hour=h, minute=m, second=s, microsecond=us)]: the date and
    the zone are kept. *)
Definition replace (dt : datetime) (h m s us : Z) : datetime :=
  {| ordinal := ordinal dt; hour := h; minute := m; second := s;
     microsecond := us; utcoffset := utcoffset dt |}.

(** [a < b], [a >= b] and [a - b] on aware datetimes. *)
Definition dt_lt (a b : datetime) : bool := instant a <? instant b.
Definition dt_ge (a b : datetime) : bool := instant b <=? instant a.
Definition dt_sub (a b : datetime) : timedelta := instant a - instant b.

(** ** Clock / time attribution *)

Definition get_meditation_date (timestamp : datetime) : date :=
  let gmt := astimezone_UTC timestamp in
  let cutoff := replace gmt 7 30 0 0 in
  if dt_lt gmt cutoff then ordinal gmt - 1 else ordinal gmt.

(** The offset of 07:30:00.000 within a UTC day, in microseconds. *)
Definition CUTOFF_US : Z := 7 * US_PER_HOUR + 30 * US_PER_MINUTE.

(** ** Settings, the record table and the cog object *)

Record Settings : Type := mk_settings {
  channel_id : option Z;            (* the decimal string of a channel id *)
  daily_message : string;
  last_post_time : option datetime; (* an ISO-8601 string, or [None] *)
  was_first_post : bool
}.

(** What [load_settings] returns when no settings file exists. *)
Definition default_settings : Settings :=
  {| channel_id := None;
     daily_message := "React to this message if you've meditated today";
     last_post_time := None;
     was_first_post := false |}.

(** Rows [(user_id, meditation_date)] of [meditation_records]. *)
Abbreviation Row := (Z * Z)%type.

(** What the cog does to the outside, in the order it does it. *)
Inductive Effect : Type :=
  | Send (channel : Z) (text : string)
  | AddReaction (e : string)
  | RemoveReaction (e : string) (user : Z)
  | SaveSettings (s : Settings).

Record MeditationCog : Type := mk_cog {
  settings : Settings;
  _last_post_attempt : option datetime;
  _post_lock : bool;                (* [self._post_lock.locked()] *)
  db : gset Row;                    (* the table behind [self.db_path] *)
  effects : list Effect             (* newest last *)
}.

Definition set_settings (s : Settings) (c : MeditationCog) : MeditationCog :=
  {| settings := s; _last_post_attempt := _last_post_attempt c;
     _post_lock := _post_lock c; db := db c; effects := effects c |}.
Definition set_last_post_attempt (a : option datetime) (c : MeditationCog)
  : MeditationCog :=
  {| settings := settings c; _last_post_attempt := a;
     _post_lock := _post_lock c; db := db c; effects := effects c |}.
Definition set_post_lock (b : bool) (c : MeditationCog) : MeditationCog :=
  {| settings := settings c; _last_post_attempt := _last_post_attempt c;
     _post_lock := b; db := db c; effects := effects c |}.
Definition set_db (d : gset Row) (c : MeditationCog) : MeditationCog :=
  {| settings := settings c; _last_post_attempt := _last_post_attempt c;
     _post_lock := _post_lock c; db := d; effects := effects c |}.
Definition add_effect (e : Effect) (c : MeditationCog) : MeditationCog :=
  {| settings := settings c; _last_post_attempt := _last_post_attempt c;
     _post_lock := _post_lock c; db := db c; effects := effects c ++ [e] |}.

Definition set_was_first_post (b : bool) (s : Settings) : Settings :=
  {| channel_id := channel_id s; daily_message := daily_message s;
     last_post_time := last_post_time s; was_first_post := b |}.
Definition set_last_post_time (t : option datetime) (s : Settings) : Settings :=
  {| channel_id := channel_id s; daily_message := daily_message s;
     last_post_time := t; was_first_post := was_first_post s |}.

(** ** The monad of methods: state that survives an exception *)

Inductive exn : Type := Exception (what : string).

Inductive outcome (A : Type) : Type :=
  | Returned (a : A)
  | Raised (e : exn).
Arguments Returned {A} a.
Arguments Raised {A} e.

Definition M (A : Type) : Type := MeditationCog -> outcome A * MeditationCog.

Definition ret {A} (a : A) : M A := fun c => (Returned a, c).
Definition raise {A} (e : exn) : M A := fun c => (Raised e, c).
Definition bind {A B} (m : M A) (k : A -> M B) : M B :=
  fun c => match m c with
           | (Returned a, c') => k a c'
           | (Raised e, c') => (Raised e, c')
           end.
Definition gets {A} (f : MeditationCog -> A) : M A := fun c => (Returned (f c), c).
Definition modify (f : MeditationCog -> MeditationCog) : M unit :=
  fun c => (Returned tt, f c).

(** [try: body  except Exception: handler] *)
Definition try_except {A} (body : M A) (handler : exn -> M A) : M A :=
  fun c => match body c with
           | (Returned a, c') => (Returned a, c')
           | (Raised e, c') => handler e c'
           end.

(** [try: body  finally: cleanup], also the exit of a [with] block. *)
Definition try_finally {A} (body : M A) (cleanup : MeditationCog -> MeditationCog)
  : M A :=
  fun c => let '(r, c') := body c in (r, cleanup c').

Global Instance M_ret : MRet M := @ret.
Global Instance M_bind : MBind M := fun A B k m => bind m k.

(** ** Posting scheduler *)

(** The thresholds of [should_post] and [daily_post], in seconds:
    [23.5 * 60 * 60], [24 * 60 * 60] and [300]. *)
Definition MIN_SPACING_S : Z := 84600.
Definition FULL_DAY_S : Z := 24 * 60 * 60.
Definition RATE_LIMIT_S : Z := 300.

Definition should_post (now : datetime) : M bool :=
  let target_time := replace now 7 30 0 0 in
  s ← gets settings;
  match last_post_time s with
  | None =>
      modify (set_settings (set_was_first_post true s));;
      mret true
  | Some last_post =>
      let time_since_last_post := dt_sub now last_post in
      if was_first_post s then
        if dt_ge now target_time && dt_lt last_post target_time then
          modify (set_settings (set_was_first_post false s));;
          mret true
        else mret false
      else if total_seconds_lt time_since_last_post MIN_SPACING_S then
        mret false
      else if dt_ge now target_time && dt_lt last_post target_time then
        mret true
      else if total_seconds_gt time_since_last_post FULL_DAY_S then
        mret true
      else mret false
  end.

(** The calls of [post_daily_message] that reach outside the process, and
    what the outside answers to one execution of [daily_post]. *)
Inductive post_step : Type := StepSend | StepReact1 | StepReact2 | StepSave.

Global Instance post_step_eq_dec : EqDecision post_step.
Proof. solve_decision. Defined.

Record Tick : Type := mk_tick {
  tick_now : datetime;            (* [datetime.now(pytz.UTC)] in [daily_post] *)
  channel_found : bool;           (* does [bot.get_channel] find the channel *)
  fails_at : option post_step;    (* the first outside call that raises *)
  post_now : datetime             (* [datetime.now(pytz.UTC)] after the send *)
}.

(** UTF-8 of the two check-in emoji: person in lotus position, zero-width
    joiner, male or female sign, variation selector 16. *)
Definition utf8 (bytes : list nat) : string :=
  fold_right (fun b s => String (ascii_of_nat b) s) EmptyString bytes.
Definition MAN_LOTUS : string :=
  utf8 [240; 159; 167; 152; 226; 128; 141; 226; 153; 130; 239; 184; 143]%nat.
Definition WOMAN_LOTUS : string :=
  utf8 [240; 159; 167; 152; 226; 128; 141; 226; 153; 128; 239; 184; 143]%nat.

(** One outside call: it raises if the outside says so, else it happens. *)
Definition outside (w : Tick) (step : post_step) (e : Effect) : M unit :=
  if decide (fails_at w = Some step)
  then raise (Exception "outside call failed")
  else modify (add_effect e).

Definition post_daily_message (w : Tick) : M unit :=
  try_except (A := unit)
    (s ← gets settings;
     match channel_id s with
     | None => raise (Exception "int() argument must be a string")
     | Some ch =>
         if channel_found w then
           outside w StepSend (Send ch (daily_message s));;
           outside w StepReact1 (AddReaction MAN_LOTUS);;
           outside w StepReact2 (AddReaction WOMAN_LOTUS);;
           let s' := set_last_post_time (Some (post_now w)) s in
           modify (set_settings s');;
           outside w StepSave (SaveSettings s')
         else mret tt
     end)
    (fun _ => mret tt).

(** Which log line ends an execution of [daily_post]. *)
Inductive tick_result : Type :=
  | SkippedLockHeld       (* "Post lock is already held, skipping this run" *)
  | SkippedNoChannel      (* "No channel ID set, skipping post" *)
  | SkippedRateLimit      (* "Within rate limit period, skipping" *)
  | ExactTimePost         (* "It's exactly posting time" *)
  | RecoveryPost          (* "Recovery posting needed" *)
  | NoPostNeeded          (* "No post needed at this time" *)
  | TickError.            (* "Error in daily_post task" *)

Definition rate_limited (now : datetime) (last : option datetime) : bool :=
  match last with
  | Some attempt => total_seconds_lt (dt_sub now attempt) RATE_LIMIT_S
  | None => false
  end.

Definition daily_post (w : Tick) : M tick_result :=
  try_except (A := tick_result)
    (locked ← gets _post_lock;
     if (locked : bool) then mret SkippedLockHeld
     else
       modify (set_post_lock true);;
       try_finally (A := tick_result)
         (s ← gets settings;
          match channel_id s with
          | None => mret SkippedNoChannel
          | Some _ =>
              let now := tick_now w in
              last ← gets _last_post_attempt;
              if rate_limited now last then mret SkippedRateLimit
              else
                modify (set_last_post_attempt (Some now));;
                let target_time := replace now 7 30 0 0 in
                if (hour now =? hour target_time)
                   && (minute now =? minute target_time)
                then post_daily_message w;; mret ExactTimePost
                else
                  b ← should_post now;
                  if (b : bool) then post_daily_message w;; mret RecoveryPost
                  else mret NoPostNeeded
          end)
         (set_post_lock false))
    (fun _ => mret TickError).

(** A tick got past the rate-limit check when it ended on one of the three
    log lines after it. *)
Definition passed_rate_limit (r : tick_result) : bool :=
  match r with
  | ExactTimePost | RecoveryPost | NoPostNeeded => true
  | _ => false
  end.

(** [post_daily_message] was called. *)
Definition attempted_post (r : tick_result) : bool :=
  match r with
  | ExactTimePost | RecoveryPost => true
  | _ => false
  end.

(** The task loop: one execution of [daily_post] per answer of the outside. *)
Fixpoint run (ws : list Tick) (c : MeditationCog)
  : list (outcome tick_result) * MeditationCog :=
  match ws with
  | [] => ([], c)
  | w :: ws' =>
      let '(r, c') := daily_post w c in
      let '(rs, c'') := run ws' c' in
      (r :: rs, c'')
  end.

(** ** Record store: the three SQL statements of the cog *)

(** [INSERT OR REPLACE INTO meditation_records VALUES (?, ?)]: a row that
    conflicts on the primary key, which is the whole row, is deleted, then
    the new row is inserted. *)
Definition insert_or_replace (row : Row) (table : gset Row) : gset Row :=
  (table ∖ {[ row ]}) ∪ {[ row ]}.

(** [DELETE FROM meditation_records WHERE user_id = ? AND meditation_date = ?] *)
Definition delete_where (user : Z) (day : date) (table : gset Row) : gset Row :=
  filter (fun row => ¬ (row.1 = user ∧ row.2 = day)) table.

(** [SELECT meditation_date FROM meditation_records WHERE user_id = ?
     ORDER BY meditation_date DESC].  The dates are stored as zero-padded
    ISO strings, whose order is the order of the days. *)
Definition later_or_same (a b : date) : Prop := b <= a.
Global Instance later_or_same_dec : RelDecision later_or_same :=
  fun a b => Z_le_dec b a.

Definition select_dates_desc (user : Z) (table : gset Row) : list date :=
  merge_sort later_or_same
    ((elements (filter (fun row => row.1 = user) table)).*2).

(** ** Streak calculator *)

(** The [for date in dates[1:]] loop of [get_streak], with its [break]. *)
Fixpoint streak_loop (dates : list date) (streak : Z) (expected_date : date) : Z :=
  match dates with
  | [] => streak
  | date :: rest =>
      if expected_date - 1 =? date
      then streak_loop rest (streak + 1) date
      else streak
  end.

Definition get_streak (user_id : Z) (current_date : date) : M Z :=
  table ← gets db;
  let dates := select_dates_desc user_id table in
  match dates with
  | [] => mret 0
  | first :: rest => mret (streak_loop rest 1 first)
  end.

(** ** Check-in events *)

Record Reaction : Type := mk_reaction {
  reaction_emoji : string;
  reaction_users : list Z           (* ids yielded by [reaction.users()] *)
}.

Record Message : Type := mk_message {
  author : Z;
  content : string;
  created_at : datetime;
  reactions : list Reaction
}.

Record Payload : Type := mk_payload {
  user_id : Z;
  message_id : Z;
  emoji : string                    (* [str(payload.emoji)] *)
}.

(** What the outside answers to one reaction event. *)
Record ReactionEnv : Type := mk_reaction_env {
  bot_user : Z;                     (* [self.bot.user.id] *)
  fetch_message : option Message;   (* [None]: the fetch raises *)
  reaction_now : datetime;          (* [datetime.now(pytz.UTC)] *)
  remove_reaction_fails : bool
}.

(** [str(e) in [MAN_LOTUS, WOMAN_LOTUS]] *)
Definition is_meditation_emoji (e : string) : bool :=
  String.eqb e MAN_LOTUS || String.eqb e WOMAN_LOTUS.

(** [message.author != self.bot.user or message.content != daily_message] *)
Definition not_meditation_message (env : ReactionEnv) (message : Message)
    (s : Settings) : bool :=
  negb (author message =? bot_user env)
  || negb (String.eqb (content message) (daily_message s)).

Definition on_raw_reaction_add (env : ReactionEnv) (payload : Payload) : M unit :=
  if user_id payload =? bot_user env then mret tt
  else
    match fetch_message env with
    | None => raise (Exception "fetch_message failed")
    | Some message =>
        s ← gets settings;
        if not_meditation_message env message s then mret tt
        else if negb (is_meditation_emoji (emoji payload)) then mret tt
        else
          let message_age := dt_sub (reaction_now env) (created_at message) in
          if days message_age >? 2 then
            if remove_reaction_fails env
            then raise (Exception "remove_reaction failed")
            else modify (add_effect (RemoveReaction (emoji payload) (user_id payload)))
          else
            let meditation_date := get_meditation_date (created_at message) in
            modify (fun c =>
              set_db (insert_or_replace (user_id payload, meditation_date) (db c)) c)
    end.

(** The nested loops over [message.reactions] and [reaction.users()]: does
    the user still hold a check-in reaction on the message. *)
Definition still_reacted (user : Z) (message : Message) : bool :=
  existsb (fun reaction =>
             is_meditation_emoji (reaction_emoji reaction)
             && existsb (fun reaction_user => reaction_user =? user)
                        (reaction_users reaction))
          (reactions message).

Definition on_raw_reaction_remove (env : ReactionEnv) (payload : Payload) : M unit :=
  match fetch_message env with
  | None => raise (Exception "fetch_message failed")
  | Some message =>
      s ← gets settings;
      if not_meditation_message env message s then mret tt
      else if negb (is_meditation_emoji (emoji payload)) then mret tt
      else if still_reacted (user_id payload) message then mret tt
      else
        let meditation_date := get_meditation_date (created_at message) in
        modify (fun c =>
          set_db (delete_where (user_id payload) meditation_date (db c)) c)
  end.

(** ** Vocabulary of the statements *)

(** 23.5 hours, in microseconds. *)
Definition HOURS_23_5 : Z := 23 * US_PER_HOUR + 30 * US_PER_MINUTE.

(** [now >= target_time and last_post < target_time], as a proposition. *)
Definition crossed_target (now last_post : datetime) : Prop :=
  instant (replace now 7 30 0 0) <= instant now /\
  instant last_post < instant (replace now 7 30 0 0).

(** Unfolds the monad, so that a method applied to a cog computes. *)
Ltac cog_unfold :=
  unfold mbind, M_bind, bind, mret, M_ret, ret, gets, modify, raise,
    try_except, try_finally in *.

(** The message did not go out whole: the send, or one of the two
    [add_reaction] calls after it, raised. *)
Definition delivery_raises (w : Tick) : Prop :=
  fails_at w = Some StepSend \/ fails_at w = Some StepReact1 \/
  fails_at w = Some StepReact2.

(** [now.hour == target_time.hour and now.minute == target_time.minute] *)
Definition exact_minute (now : datetime) : Prop := hour now = 7 /\ minute now = 30.

(** The [if]/[elif]/[else] that ends [daily_post]: what a tick does once
    it is past the rate-limit check. *)
Definition post_decision (w : Tick) : M tick_result :=
  let now := tick_now w in
  let target_time := replace now 7 30 0 0 in
  if (hour now =? hour target_time) && (minute now =? minute target_time)
  then post_daily_message w;; mret ExactTimePost
  else
    b ← should_post now;
    if (b : bool) then post_daily_message w;; mret RecoveryPost
    else mret NoPostNeeded.

(** A post is overdue at [now]: nothing was ever posted, or the last post
    is more than 24 hours back and the 07:30 target of the day of [now] is
    reached. *)
Definition overdue (now : datetime) (last : option datetime) : Prop :=
  match last with
  | None => True
  | Some last_post =>
      24 * US_PER_HOUR < instant now - instant last_post /\
      instant (replace now 7 30 0 0) <= instant now
  end.

(** The event is a check-in: a check-in emoji put on the daily message. *)
Definition check_in_event (env : ReactionEnv) (payload : Payload)
    (message : Message) (c : MeditationCog) : Prop :=
  fetch_message env = Some message /\
  not_meditation_message env message (settings c) = false /\
  is_meditation_emoji (emoji payload) = true.

(** The number [get_streak] returns for a user, read off the table. *)
Definition streak_of (table : gset Row) (user : Z) : Z :=
  match select_dates_desc user table with
  | [] => 0
  | first :: rest => streak_loop rest 1 first
  end.

(** Items are in leaderboard order: no later item has a greater streak. *)
Definition by_streak_desc (a b : Z * Z) : Prop := b.2 <= a.2.

(** The condition under which [should_post] answers [True], state by
    state. *)
Definition recovery_due (now : datetime) (s : Settings) : Prop :=
  match last_post_time s with
  | None => True
  | Some last_post =>
      if was_first_post s then crossed_target now last_post
      else HOURS_23_5 <= instant now - instant last_post /\
           (crossed_target now last_post \/
            24 * US_PER_HOUR < instant now - instant last_post)
  end.

(** The three outside calls that put the message up all went through. *)
Definition delivered (w : Tick) : Prop :=
  channel_found w = true /\ (fails_at w = None \/ fails_at w = Some StepSave).

(** What [post_daily_message] gets done outside before it stops. *)
Definition sent_effects (w : Tick) (s : Settings) (ch : Z) : list Effect :=
  if channel_found w then
    match fails_at w with
    | Some StepSend => []
    | Some StepReact1 => [Send ch (daily_message s)]
    | Some StepReact2 => [Send ch (daily_message s); AddReaction MAN_LOTUS]
    | Some StepSave =>
        [Send ch (daily_message s); AddReaction MAN_LOTUS;
         AddReaction WOMAN_LOTUS]
    | None =>
        [Send ch (daily_message s); AddReaction MAN_LOTUS;
         AddReaction WOMAN_LOTUS;
         SaveSettings (set_last_post_time (Some (post_now w)) s)]
    end
  else [].

(** ** Concrete inputs *)

(** A UTC datetime on a whole second. *)
Definition utc (day h m s : Z) : datetime := mk_datetime day h m s 0 0.

(** A cog with a channel configured that has never posted. *)
Definition cog_never_posted : MeditationCog :=
  {| settings := {| channel_id := Some 42;
                    daily_message := daily_message default_settings;
                    last_post_time := None;
                    was_first_post := false |};
     _last_post_attempt := None; _post_lock := false; db := ∅; effects := [] |}.

(** A freshly installed cog: the default settings, no channel yet. *)
Definition cog_fresh : MeditationCog :=
  {| settings := default_settings;
     _last_post_attempt := None; _post_lock := false; db := ∅; effects := [] |}.

(** A tick at 07:30:15 UTC where the outside lets everything through. *)
Definition tick_0730 : Tick :=
  {| tick_now := utc 739000 7 30 15; channel_found := true;
     fails_at := None; post_now := utc 739000 7 30 16 |}.

(** A tick at 15:00:00 UTC where the outside lets everything through, and
    one where the send raises. *)
Definition tick_1500 : Tick :=
  {| tick_now := utc 739000 15 0 0; channel_found := true;
     fails_at := None; post_now := utc 739000 15 0 1 |}.
Definition tick_1500_send_raises : Tick :=
  {| tick_now := utc 739000 15 0 0; channel_found := true;
     fails_at := Some StepSend; post_now := utc 739000 15 0 1 |}.

(** A table where user 7 has checked in on days 100, 99, 98 and 95, and
    user 8 on day 100. *)
Definition table_gap : gset Row :=
  {[ (7, 100); (7, 99); (7, 98); (7, 95); (8, 100) ]}.
Definition cog_gap : MeditationCog :=
  {| settings := settings cog_never_posted;
     _last_post_attempt := None; _post_lock := false;
     db := table_gap; effects := [] |}.

(** The daily message as the bot (user 1) posted it at 10:00:00 UTC on day
    739000, and a reaction by user 7 at 09:00:00 UTC three dates later:
    two days and 23 hours after the message. *)
Definition prompt_message : Message :=
  {| author := 1; content := daily_message default_settings;
     created_at := utc 739000 10 0 0; reactions := [] |}.
Definition late_reaction_env : ReactionEnv :=
  {| bot_user := 1; fetch_message := Some prompt_message;
     reaction_now := utc 739003 9 0 0; remove_reaction_fails := false |}.
Definition reaction_by_7 : Payload :=
  {| user_id := 7; message_id := 1001; emoji := MAN_LOTUS |}.

(** The same message reacted to one hour after it was posted, by user 7
    and, with the other emoji, by user 8 a day later. *)
Definition early_reaction_env : ReactionEnv :=
  {| bot_user := 1; fetch_message := Some prompt_message;
     reaction_now := utc 739000 11 0 0; remove_reaction_fails := false |}.
Definition next_day_reaction_env : ReactionEnv :=
  {| bot_user := 1; fetch_message := Some prompt_message;
     reaction_now := utc 739001 11 0 0; remove_reaction_fails := false |}.
Definition reaction_by_8 : Payload :=
  {| user_id := 8; message_id := 1001; emoji := WOMAN_LOTUS |}.

(** A cog in the steady state whose last post was at 06:00:00 UTC on day
    738999, and one waiting after its first post at 15:00:00 that day. *)
Definition cog_steady : MeditationCog :=
  {| settings := {| channel_id := Some 42;
                    daily_message := daily_message default_settings;
                    last_post_time := Some (utc 738999 6 0 0);
                    was_first_post := false |};
     _last_post_attempt := None; _post_lock := false; db := ∅; effects := [] |}.
Definition cog_posted_first : MeditationCog :=
  {| settings := {| channel_id := Some 42;
                    daily_message := daily_message default_settings;
                    last_post_time := Some (utc 738999 15 0 0);
                    was_first_post := true |};
     _last_post_attempt := None; _post_lock := false; db := ∅; effects := [] |}.

(** A tick two minutes after [tick_1500]. *)
Definition tick_1502 : Tick :=
  {| tick_now := utc 739000 15 2 0; channel_found := true;
     fails_at := None; post_now := utc 739000 15 2 1 |}.

(** 09:00:00 on day 739000 on a clock two hours east of UTC. *)
Definition nine_oclock_plus_two : datetime :=
  mk_datetime 739000 9 0 0 0 (2 * US_PER_HOUR).

(** ** Leaderboard *)

(** [streaks[key] = value] on a dict kept in insertion order: a present
    key keeps its place and takes the new value, a new key goes last. *)
Fixpoint dict_set (key value : Z) (d : list (Z * Z)) : list (Z * Z) :=
  match d with
  | [] => [(key, value)]
  | (k, v) :: rest =>
      if k =? key then (k, value) :: rest
      else (k, v) :: dict_set key value rest
  end.

(** [dict(items)] *)
Definition dict_of_items (items : list (Z * Z)) : list (Z * Z) :=
  fold_left (fun d item => dict_set item.1 item.2 d) items [].

(** [sorted(items, key=lambda x: x[1], reverse=True)].  Python's sort is
    stable, also with [reverse=True]: items with equal values keep their
    order.  A stable sort has one possible result, which this insertion
    sort computes: an item goes before the first item whose value is not
    greater than its own. *)
Fixpoint insert_by_streak (item : Z * Z) (sorted : list (Z * Z)) : list (Z * Z) :=
  match sorted with
  | [] => [item]
  | other :: rest =>
      if item.2 <? other.2 then other :: insert_by_streak item rest
      else item :: other :: rest
  end.

Definition sorted_by_streak_desc (items : list (Z * Z)) : list (Z * Z) :=
  fold_right insert_by_streak [] items.

(** The [for user_id in user_ids] loop of [get_all_streaks]. *)
Fixpoint all_streaks_loop (user_ids : list Z) (current_date : date)
    (streaks : list (Z * Z)) : M (list (Z * Z)) :=
  match user_ids with
  | [] => mret streaks
  | user_id :: rest =>
      streak ← get_streak user_id current_date;
      all_streaks_loop rest current_date
        (if 0 <? streak then dict_set user_id streak streaks else streaks)
  end.

(** [get_all_streaks].  [user_ids] is what [SELECT DISTINCT user_id FROM
    meditation_records] returns, in the order SQLite returns it, which SQL
    leaves open. *)
Definition get_all_streaks (user_ids : list Z) (current_date : date)
  : M (list (Z * Z)) :=
  streaks ← all_streaks_loop user_ids current_date [];
  mret (dict_of_items (sorted_by_streak_desc streaks)).

(** [user_ids] is an answer to the [SELECT DISTINCT] on [table]. *)
Definition distinct_users_of (table : gset Row) (user_ids : list Z) : Prop :=
  NoDup user_ids /\ forall user, user ∈ user_ids <-> exists day, (user, day) ∈ table.

(** ** Configuration commands *)

Inductive command_step : Type := StepSaveSettings | StepReply.

Global Instance command_step_eq_dec : EqDecision command_step.
Proof. solve_decision. Defined.

(** The invocation context of a command and what the outside answers. *)
Record Context : Type := mk_context {
  ctx_channel_id : Z;               (* [ctx.channel.id] *)
  ctx_channel_name : string;        (* [ctx.channel.name] *)
  ctx_fails_at : option command_step
}.

Definition command_outside (ctx : Context) (step : command_step) (e : Effect)
  : M unit :=
  if decide (ctx_fails_at ctx = Some step)
  then raise (Exception "outside call failed")
  else modify (add_effect e).

Definition update_daily_message (message : string) (s : Settings) : Settings :=
  {| channel_id := channel_id s; daily_message := message;
     last_post_time := last_post_time s; was_first_post := was_first_post s |}.
Definition update_channel_id (ch : option Z) (s : Settings) : Settings :=
  {| channel_id := ch; daily_message := daily_message s;
     last_post_time := last_post_time s; was_first_post := was_first_post s |}.

Definition set_daily_message (ctx : Context) (message : string) : M unit :=
  s ← gets settings;
  let s' := update_daily_message message s in
  modify (set_settings s');;
  command_outside ctx StepSaveSettings (SaveSettings s');;
  command_outside ctx StepReply
    (Send (ctx_channel_id ctx) ("Daily message updated to: " ++ message)).

Definition set_channel (ctx : Context) : M unit :=
  s ← gets settings;
  let s' := update_channel_id (Some (ctx_channel_id ctx)) s in
  modify (set_settings s');;
  command_outside ctx StepSaveSettings (SaveSettings s');;
  command_outside ctx StepReply
    (Send (ctx_channel_id ctx)
          ("Meditation channel set to: " ++ ctx_channel_name ctx)).

(** ** More concrete inputs *)

(** The daily message posted at 10:00:00 UTC on day 101, reacted to by
    user 7 an hour later. *)
Definition prompt_day_101 : Message :=
  {| author := 1; content := daily_message default_settings;
     created_at := utc 101 10 0 0; reactions := [] |}.
Definition reaction_env_day_101 : ReactionEnv :=
  {| bot_user := 1; fetch_message := Some prompt_day_101;
     reaction_now := utc 101 11 0 0; remove_reaction_fails := false |}.

(** A reaction on [prompt_message] three days and 23 hours after it. *)
Definition stale_reaction_env : ReactionEnv :=
  {| bot_user := 1; fetch_message := Some prompt_message;
     reaction_now := utc 739004 9 0 0; remove_reaction_fails := false |}.

(** A command given in channel 42, where save and reply go through. *)
Definition ctx_channel_42 : Context :=
  {| ctx_channel_id := 42; ctx_channel_name := "meditation";
     ctx_fails_at := None |}.

(** * Properties *)

(** ** Time attribution *)

Section time_facts.
Implicit Types (dt : datetime) (t off : Z).

Lemma instant_of_instant t off : instant (of_instant t off) = t.
Proof.
  unfold instant, wall_clock, of_instant; cbn [ordinal hour minute second microsecond utcoffset].
  unfold US_PER_DAY, US_PER_HOUR, US_PER_MINUTE, US_PER_SECOND.
  Z.div_mod_to_equations. lia.
Qed.

Lemma wf_of_instant t off :
  - US_PER_DAY < off < US_PER_DAY -> wf_datetime (of_instant t off).
Proof.
  unfold wf_datetime, of_instant; cbn [ordinal hour minute second microsecond utcoffset].
  unfold US_PER_DAY, US_PER_HOUR, US_PER_MINUTE, US_PER_SECOND.
  intros Hoff. repeat split; try lia; Z.div_mod_to_equations; lia.
Qed.

Lemma instant_astimezone_UTC dt : instant (astimezone_UTC dt) = instant dt.
Proof. apply instant_of_instant. Qed.

Lemma ordinal_astimezone_UTC dt :
  ordinal (astimezone_UTC dt) = instant dt / US_PER_DAY.
Proof. unfold astimezone_UTC, of_instant; cbn. by rewrite Z.add_0_r. Qed.

(** [replace] to 07:30:00.000 lands [CUTOFF_US] after the midnight of
    the same wall-clock date. *)
Lemma instant_replace_cutoff dt :
  instant (replace dt 7 30 0 0)
  = ordinal dt * US_PER_DAY + CUTOFF_US - utcoffset dt.
Proof.
  unfold instant, wall_clock, replace, CUTOFF_US; cbn.
  unfold US_PER_DAY, US_PER_HOUR, US_PER_MINUTE, US_PER_SECOND. lia.
Qed.

(** The logical day in closed form: shift the instant back by the cutoff
    and take the UTC date. *)
Lemma get_meditation_date_closed dt :
  get_meditation_date dt = (instant dt - CUTOFF_US) / US_PER_DAY.
Proof.
  unfold get_meditation_date, dt_lt.
  rewrite instant_replace_cutoff, instant_astimezone_UTC, ordinal_astimezone_UTC.
  cbn [utcoffset astimezone_UTC of_instant].
  unfold CUTOFF_US, US_PER_DAY, US_PER_HOUR, US_PER_MINUTE, US_PER_SECOND.
  destruct (Z.ltb_spec (instant dt)
    (instant dt / (24 * (60 * (60 * 1000000))) * (24 * (60 * (60 * 1000000)))
     + (7 * (60 * (60 * 1000000)) + 30 * (60 * 1000000)) - 0));
    Z.div_mod_to_equations; lia.
Qed.

Lemma get_meditation_date_mono dt1 dt2 :
  instant dt1 <= instant dt2 ->
  get_meditation_date dt1 <= get_meditation_date dt2.
Proof.
  intros Hle. rewrite !get_meditation_date_closed.
  apply Z.div_le_mono; [reflexivity | lia].
Qed.
End time_facts.

(** C6.  An instant that falls on UTC calendar date [D] (whatever zone its
    datetime is expressed in) is attributed to [D] when it is at or after
    07:30:00.000 UTC of that date, and to [D - 1] when it is before; at
    exactly 07:30:00.000 the date is [D] itself. *)
Theorem logical_day_cutoff (timestamp : datetime) (D : date) :
  D * US_PER_DAY <= instant timestamp < (D + 1) * US_PER_DAY ->
  ordinal (astimezone_UTC timestamp) = D /\
  (D * US_PER_DAY + CUTOFF_US <= instant timestamp ->
   get_meditation_date timestamp = D) /\
  (instant timestamp < D * US_PER_DAY + CUTOFF_US ->
   get_meditation_date timestamp = D - 1) /\
  get_meditation_date (mk_datetime D 7 30 0 0 0) = D.
Proof.
  intros Hday.
  assert (Hexact : instant (mk_datetime D 7 30 0 0 0) = D * US_PER_DAY + CUTOFF_US).
  { unfold instant, wall_clock, CUTOFF_US; cbn.
    unfold US_PER_DAY, US_PER_HOUR, US_PER_MINUTE, US_PER_SECOND. lia. }
  rewrite ordinal_astimezone_UTC, !get_meditation_date_closed, Hexact.
  revert Hday. unfold CUTOFF_US, US_PER_DAY, US_PER_HOUR, US_PER_MINUTE, US_PER_SECOND.
  intros Hday. repeat split; intros; Z.div_mod_to_equations; lia.
Qed.

(** ** Posting scheduler: the recovery predicate *)


Lemma thresholds_in_us :
  MIN_SPACING_S * US_PER_SECOND = HOURS_23_5 /\
  FULL_DAY_S * US_PER_SECOND = 24 * US_PER_HOUR /\
  RATE_LIMIT_S * US_PER_SECOND = 5 * US_PER_MINUTE.
Proof. by vm_compute. Qed.


Lemma crossed_target_reflect now last_post :
  dt_ge now (replace now 7 30 0 0) && dt_lt last_post (replace now 7 30 0 0) = true
  <-> crossed_target now last_post.
Proof.
  unfold crossed_target, dt_ge, dt_lt.
  rewrite andb_true_iff, Z.leb_le, Z.ltb_lt. tauto.
Qed.

(** The answer of [should_post] in each of the three states. *)
Lemma should_post_uninitialized (c : MeditationCog) (now : datetime) :
  last_post_time (settings c) = None ->
  should_post now c
  = (Returned true, set_settings (set_was_first_post true (settings c)) c).
Proof. intros Hlast. unfold should_post; cog_unfold. by rewrite Hlast. Qed.

Lemma should_post_first_eq (c : MeditationCog) (now last_post : datetime) :
  last_post_time (settings c) = Some last_post ->
  was_first_post (settings c) = true ->
  should_post now c
  = if dt_ge now (replace now 7 30 0 0) && dt_lt last_post (replace now 7 30 0 0)
    then (Returned true, set_settings (set_was_first_post false (settings c)) c)
    else (Returned false, c).
Proof.
  intros Hlast Hflag. unfold should_post; cog_unfold. rewrite Hlast, Hflag.
  by destruct (_ && _).
Qed.

Lemma should_post_steady_eq (c : MeditationCog) (now last_post : datetime) :
  last_post_time (settings c) = Some last_post ->
  was_first_post (settings c) = false ->
  should_post now c
  = (Returned
       (negb (total_seconds_lt (dt_sub now last_post) MIN_SPACING_S)
        && ((dt_ge now (replace now 7 30 0 0)
             && dt_lt last_post (replace now 7 30 0 0))
            || total_seconds_gt (dt_sub now last_post) FULL_DAY_S)), c).
Proof.
  intros Hlast Hflag. unfold should_post; cog_unfold. rewrite Hlast, Hflag.
  destruct (total_seconds_lt _ _); [done|].
  destruct (_ && _); [done|]. by destruct (total_seconds_gt _ _).
Qed.

(** C1.  Steady state: [should_post] refuses below 23.5 hours since the
    last post, and from 23.5 hours on accepts exactly when the 07:30
    target of the day of [now] has been crossed since the last post or
    more than 24 hours have passed; the settings are not touched.  So a
    last post 20 hours ago with [now] before the target gives no post,
    and a last post 25 hours ago gives a post wherever the target lies. *)
Theorem should_post_steady (c : MeditationCog) (now last_post : datetime) :
  last_post_time (settings c) = Some last_post ->
  was_first_post (settings c) = false ->
  let elapsed := instant now - instant last_post in
  exists b : bool,
    should_post now c = (Returned b, c) /\
    (elapsed < HOURS_23_5 -> b = false) /\
    (HOURS_23_5 <= elapsed ->
     (b = true <-> crossed_target now last_post \/ 24 * US_PER_HOUR < elapsed)) /\
    (elapsed = 20 * US_PER_HOUR ->
     instant now < instant (replace now 7 30 0 0) -> b = false) /\
    (elapsed = 25 * US_PER_HOUR -> b = true).
Proof.
  intros Hlast Hflag elapsed.
  pose proof (crossed_target_reflect now last_post) as Hcross.
  rewrite (should_post_steady_eq c now last_post Hlast Hflag).
  eexists. split; [reflexivity|].
  unfold total_seconds_lt, total_seconds_gt, dt_sub. fold elapsed.
  destruct thresholds_in_us as (-> & -> & _).
  destruct (Z.ltb_spec elapsed HOURS_23_5) as [Hlt | Hge]; cbn [negb andb].
  { split_and!; [done | lia | done |].
    intros ->. vm_compute in Hlt. discriminate. }
  destruct (dt_ge now (replace now 7 30 0 0) && dt_lt last_post (replace now 7 30 0 0));
    cbn [orb].
  { assert (Hc : crossed_target now last_post) by (by apply Hcross).
    split_and!; [lia | by intros _; split; [left|] | | done].
    intros _ Hbefore. destruct Hc as [Hc _]. lia. }
  assert (Hno : ~ crossed_target now last_post).
  { intros Hx. apply Hcross in Hx. discriminate. }
  destruct (Z.ltb_spec (24 * US_PER_HOUR) elapsed) as [Hgt | Hle].
  - split_and!; [lia | by intros _; split; [right|] | | done].
    intros ->. vm_compute in Hgt. discriminate.
  - split_and!; [done | | done |].
    + intros _. split; [discriminate|]. intros [Hx | Hx]; [contradiction | lia].
    + intros ->. vm_compute in Hle. contradiction Hle. reflexivity.
Qed.

(** C3.  Posted-First state: [should_post] accepts, and clears
    [was_first_post], exactly when the 07:30 target of the day of [now]
    has been crossed since the last post; in every other case it refuses
    and leaves the cog, and so the flag, as it was. *)
Theorem should_post_after_first (c : MeditationCog) (now last_post : datetime) :
  last_post_time (settings c) = Some last_post ->
  was_first_post (settings c) = true ->
  exists (b : bool) (c' : MeditationCog),
    should_post now c = (Returned b, c') /\
    (b = true <-> crossed_target now last_post) /\
    (crossed_target now last_post ->
     c' = set_settings (set_was_first_post false (settings c)) c /\
     was_first_post (settings c') = false) /\
    (~ crossed_target now last_post ->
     c' = c /\ was_first_post (settings c') = true).
Proof.
  intros Hlast Hflag.
  pose proof (crossed_target_reflect now last_post) as Hcross.
  rewrite (should_post_first_eq c now last_post Hlast Hflag).
  destruct (dt_ge now (replace now 7 30 0 0) && dt_lt last_post (replace now 7 30 0 0)).
  - exists true. eexists. split; [reflexivity|].
    assert (crossed_target now last_post) by (by apply Hcross).
    split_and!; [tauto | done | contradiction].
  - exists false. eexists. split; [reflexivity|].
    assert (~ crossed_target now last_post).
    { intros Hx. apply Hcross in Hx. discriminate. }
    split_and!; [split; [discriminate | contradiction] | contradiction | done].
Qed.

(** ** Posting scheduler: [post_daily_message] *)

Lemma set_post_lock_release (c : MeditationCog) :
  _post_lock c = false -> set_post_lock false (set_post_lock true c) = c.
Proof. destruct c; cbn; by intros ->. Qed.

(** What [should_post] leaves alone, whatever it answers. *)
Lemma should_post_frame (now : datetime) (c : MeditationCog) :
  exists (b : bool) (c' : MeditationCog),
    should_post now c = (Returned b, c') /\
    _last_post_attempt c' = _last_post_attempt c /\
    _post_lock c' = _post_lock c /\ db c' = db c /\ effects c' = effects c /\
    last_post_time (settings c') = last_post_time (settings c) /\
    channel_id (settings c') = channel_id (settings c).
Proof.
  unfold should_post; cog_unfold.
  destruct (last_post_time (settings c)) as [last_post|] eqn:Hlast;
    repeat match goal with |- context [if ?b then _ else _] => destruct b end;
    do 2 eexists; (split; [reflexivity|]); cbn; by rewrite ?Hlast.
Qed.

(** [post_daily_message] always returns: its [except] swallows whatever
    the body raises.  It never touches the attempt time, the lock, the
    table, the channel or the first-post flag. *)
Lemma post_daily_message_returns (w : Tick) (c : MeditationCog) :
  exists c' : MeditationCog,
    post_daily_message w c = (Returned tt, c') /\
    _last_post_attempt c' = _last_post_attempt c /\
    _post_lock c' = _post_lock c /\ db c' = db c /\
    was_first_post (settings c') = was_first_post (settings c) /\
    channel_id (settings c') = channel_id (settings c).
Proof.
  unfold post_daily_message, outside; cog_unfold.
  destruct (channel_id (settings c)) as [ch|] eqn:Hch; [|by eexists].
  destruct (channel_found w); [|by eexists].
  repeat match goal with |- context [decide ?P] => destruct (decide P) end;
    cbn; eexists; (split; [reflexivity|]); cbn; by rewrite ?Hch.
Qed.

(** When the send or an [add_reaction] raises, no setting is written. *)
Lemma post_daily_message_failed (w : Tick) (c : MeditationCog) :
  delivery_raises w ->
  exists c' : MeditationCog,
    post_daily_message w c = (Returned tt, c') /\ settings c' = settings c.
Proof.
  intros Hfail. unfold post_daily_message, outside; cog_unfold.
  destruct (channel_id (settings c)) as [ch|]; [|by eexists].
  destruct (channel_found w); [|by eexists].
  destruct Hfail as [-> | [-> | ->]]; cbn; by eexists.
Qed.

(** When the channel resolves and nothing raises, the message, the two
    reactions and the save go out in this order, and the time read after
    the send becomes [last_post_time]. *)
Lemma post_daily_message_delivered (w : Tick) (c : MeditationCog) (ch : Z) :
  channel_id (settings c) = Some ch ->
  channel_found w = true -> fails_at w = None ->
  let s' := set_last_post_time (Some (post_now w)) (settings c) in
  exists c' : MeditationCog,
    post_daily_message w c = (Returned tt, c') /\
    settings c' = s' /\
    effects c' = effects c ++ [Send ch (daily_message (settings c));
                               AddReaction MAN_LOTUS; AddReaction WOMAN_LOTUS;
                               SaveSettings s'].
Proof.
  intros Hch Hfound Hok. unfold post_daily_message, outside; cog_unfold.
  rewrite Hch, Hfound, Hok; cbn. eexists. split; [reflexivity|].
  cbn. split; [done|]. by rewrite <- !app_assoc.
Qed.

(** ** Posting scheduler: one execution of [daily_post] *)

Lemma exact_minute_reflect (now : datetime) :
  (hour now =? hour (replace now 7 30 0 0))
  && (minute now =? minute (replace now 7 30 0 0)) = true
  <-> exact_minute now.
Proof. unfold exact_minute; cbn. rewrite andb_true_iff, !Z.eqb_eq. tauto. Qed.

(** A tick that is skipped changes nothing; a tick that gets past the
    rate-limit check was not rate limited and has recorded its own time as
    the last attempt.  No tick raises. *)
Lemma daily_post_step (w : Tick) (c : MeditationCog) :
  exists (r : tick_result) (c' : MeditationCog),
    daily_post w c = (Returned r, c') /\
    ((passed_rate_limit r = false /\ c' = c) \/
     (passed_rate_limit r = true /\
      _post_lock c = false /\ channel_id (settings c) <> None /\
      rate_limited (tick_now w) (_last_post_attempt c) = false /\
      _last_post_attempt c' = Some (tick_now w) /\ _post_lock c' = false /\
      channel_id (settings c') = channel_id (settings c))).
Proof.
  unfold daily_post; cog_unfold.
  destruct (_post_lock c) eqn:Hlock; [by do 2 eexists; split; [|left]|].
  cbn [settings set_post_lock _last_post_attempt].
  destruct (channel_id (settings c)) as [ch|] eqn:Hch; cbn;
    [|do 2 eexists; split; [done|left]; by rewrite set_post_lock_release].
  destruct (rate_limited (tick_now w) (_last_post_attempt c)) eqn:Hrate; cbn;
    [do 2 eexists; split; [done|left]; by rewrite set_post_lock_release|].
  set (c1 := set_last_post_attempt _ _).
  assert (Hch1 : channel_id (settings c1) = Some ch) by done.
  destruct (_ && _).
  - destruct (post_daily_message_returns w c1) as (c2 & -> & Ha & _ & _ & _ & Hk).
    do 2 eexists; split; [done|right]. cbn. by rewrite Ha, Hk.
  - destruct (should_post_frame (tick_now w) c1)
      as (b & c2 & -> & Ha & _ & _ & _ & _ & Hk).
    destruct b.
    + destruct (post_daily_message_returns w c2)
        as (c3 & -> & Ha' & _ & _ & _ & Hk').
      do 2 eexists; split; [done|right]. cbn. by rewrite Ha', Ha, Hk', Hk.
    + do 2 eexists; split; [done|right]. cbn. by rewrite Ha, Hk.
Qed.

(** ** Posting scheduler: the rate limit over a run of ticks *)

Lemma run_cons (w : Tick) (ws : list Tick) (c : MeditationCog) :
  (run (w :: ws) c).1 = (daily_post w c).1 :: (run ws (daily_post w c).2).1.
Proof.
  cbn [run]. destruct (daily_post w c) as [r c']. cbn [fst snd].
  by destruct (run ws c').
Qed.

Lemma not_rate_limited (now attempt : datetime) :
  rate_limited now (Some attempt) = false ->
  5 * US_PER_MINUTE <= instant now - instant attempt.
Proof.
  unfold rate_limited, total_seconds_lt, dt_sub. intros Hrate.
  apply Z.ltb_ge in Hrate. by destruct thresholds_in_us as (_ & _ & <-).
Qed.

(** Once an attempt is on record, every later tick that gets past the
    check is at least five minutes after it. *)
Lemma run_after_attempt (ws : list Tick) :
  forall (c : MeditationCog) (attempt : datetime) (j : nat) (wj : Tick)
         (rj : tick_result),
    _last_post_attempt c = Some attempt ->
    ws !! j = Some wj -> (run ws c).1 !! j = Some (Returned rj) ->
    passed_rate_limit rj = true ->
    5 * US_PER_MINUTE <= instant (tick_now wj) - instant attempt.
Proof.
  induction ws as [|w ws IH]; intros c attempt j wj rj Hatt Hw Hr Hpass; [done|].
  rewrite run_cons in Hr.
  destruct (daily_post_step w c) as (r & c' & Heq & Hstep).
  rewrite Heq in Hr; cbn [fst snd] in Hr.
  destruct j as [|j]; cbn in Hw, Hr.
  - injection Hw as ->. injection Hr as ->.
    destruct Hstep as [[Hskip _] | (_ & _ & _ & Hrate & _)]; [congruence|].
    rewrite Hatt in Hrate. by apply not_rate_limited.
  - destruct Hstep as [[_ ->] | (_ & _ & _ & Hrate & Hatt' & _)].
    + by eapply IH.
    + rewrite Hatt in Hrate. apply not_rate_limited in Hrate.
      specialize (IH c' (tick_now w) j wj rj Hatt' Hw Hr Hpass).
      unfold US_PER_MINUTE, US_PER_SECOND in *. lia.
Qed.

(** Two ticks of one run that both get past the check are at least five
    minutes apart, the later one after the earlier one. *)
Lemma run_spacing (ws : list Tick) :
  forall (c : MeditationCog) (i j : nat) (wi wj : Tick) (ri rj : tick_result),
    (i < j)%nat ->
    ws !! i = Some wi -> ws !! j = Some wj ->
    (run ws c).1 !! i = Some (Returned ri) ->
    (run ws c).1 !! j = Some (Returned rj) ->
    passed_rate_limit ri = true -> passed_rate_limit rj = true ->
    5 * US_PER_MINUTE <= instant (tick_now wj) - instant (tick_now wi).
Proof.
  induction ws as [|w ws IH]; intros c i j wi wj ri rj Hij Hwi Hwj Hri Hrj Hpi Hpj;
    [done|].
  rewrite run_cons in Hri, Hrj.
  destruct j as [|j]; [lia|]. cbn in Hwj, Hrj.
  destruct i as [|i]; cbn in Hwi, Hri.
  - injection Hwi as ->.
    destruct (daily_post_step wi c) as (r & c' & Heq & Hstep).
    rewrite Heq in Hri, Hrj; cbn [fst snd] in Hri, Hrj. injection Hri as ->.
    destruct Hstep as [[Hskip _] | (_ & _ & _ & _ & Hatt & _)]; [congruence|].
    by eapply run_after_attempt.
  - eapply (IH _ i j); eauto with lia.
Qed.

(** A tick that is not skipped records its instant first and only then
    decides: the decision runs on the cog with the attempt on record. *)
Lemma daily_post_past_check (w : Tick) (c : MeditationCog) :
  _post_lock c = false -> channel_id (settings c) <> None ->
  rate_limited (tick_now w) (_last_post_attempt c) = false ->
  daily_post w c
  = let '(r, c') :=
      post_decision w (set_last_post_attempt (Some (tick_now w))
                         (set_post_lock true c)) in
    (r, set_post_lock false c').
Proof.
  intros Hlock Hch Hrate. unfold daily_post, post_decision; cog_unfold.
  rewrite Hlock. cbn [settings set_post_lock _last_post_attempt].
  destruct (channel_id (settings c)); [clear Hch|done]. cbn.
  rewrite Hrate; cbn. set (c1 := set_last_post_attempt _ _).
  destruct (_ && _).
  - by destruct (post_daily_message_returns w c1) as (c2 & -> & _).
  - destruct (should_post_frame (tick_now w) c1) as (b & c2 & -> & _).
    destruct b; [|done].
    by destruct (post_daily_message_returns w c2) as (c3 & -> & _).
Qed.

(** C2.  Of two ticks of one run whose instants are less than five
    minutes apart, at most one gets past the rate-limit check.  A tick
    less than five minutes after the recorded attempt is skipped with the
    cog unchanged: no posting condition is evaluated.  Every tick that
    gets past the check has recorded its instant as the last attempt,
    and it did so before the post decision, which runs on the cog with
    the attempt already on record. *)
Theorem rate_limit_one_per_window :
  (forall (ws : list Tick) (c : MeditationCog) (i j : nat) (wi wj : Tick)
          (ri rj : tick_result),
     (i < j)%nat ->
     ws !! i = Some wi -> ws !! j = Some wj ->
     (run ws c).1 !! i = Some (Returned ri) ->
     (run ws c).1 !! j = Some (Returned rj) ->
     Z.abs (instant (tick_now wj) - instant (tick_now wi)) < 5 * US_PER_MINUTE ->
     ~ (passed_rate_limit ri = true /\ passed_rate_limit rj = true)) /\
  (forall (w : Tick) (c : MeditationCog) (attempt : datetime),
     _last_post_attempt c = Some attempt ->
     instant (tick_now w) - instant attempt < 5 * US_PER_MINUTE ->
     exists r : tick_result,
       daily_post w c = (Returned r, c) /\ passed_rate_limit r = false) /\
  (forall (w : Tick) (c c' : MeditationCog) (r : tick_result),
     daily_post w c = (Returned r, c') ->
     passed_rate_limit r = true ->
     _last_post_attempt c' = Some (tick_now w)) /\
  (forall (w : Tick) (c : MeditationCog),
     _post_lock c = false -> channel_id (settings c) <> None ->
     rate_limited (tick_now w) (_last_post_attempt c) = false ->
     exists c1 : MeditationCog,
       _last_post_attempt c1 = Some (tick_now w) /\
       daily_post w c
       = let '(r, c') := post_decision w c1 in (r, set_post_lock false c')).
Proof.
  split_and!.
  - intros ws c i j wi wj ri rj Hij Hwi Hwj Hri Hrj Hnear [Hpi Hpj].
    pose proof (run_spacing ws c i j wi wj ri rj Hij Hwi Hwj Hri Hrj Hpi Hpj). lia.
  - intros w c attempt Hatt Hnear.
    destruct (daily_post_step w c) as (r & c' & Heq & Hstep).
    destruct Hstep as [[Hskip ->] | (_ & _ & _ & Hrate & _)]; [by exists r|].
    rewrite Hatt in Hrate. apply not_rate_limited in Hrate. lia.
  - intros w c c' r Heq Hpass.
    destruct (daily_post_step w c) as (r0 & c0 & Heq0 & Hstep).
    rewrite Heq in Heq0. injection Heq0 as <- <-.
    destruct Hstep as [[Hskip _] | (_ & _ & _ & _ & Hatt & _)]; congruence.
  - intros w c Hlock Hch Hrate. eexists.
    split; [|by apply daily_post_past_check]. done.
Qed.

(** ** Posting scheduler: the steady state seen from the tick *)

(** Before the target, [now] is not in the 07:30 minute. *)
Lemma before_target_not_exact (now : datetime) :
  wf_datetime now ->
  instant now < instant (replace now 7 30 0 0) -> ~ exact_minute now.
Proof.
  intros (_ & _ & Hs & Hus & _) Hbefore [Hh Hm]. revert Hbefore.
  unfold instant, wall_clock, replace; cbn. rewrite Hh, Hm.
  unfold US_PER_SECOND in *. lia.
Qed.

(** In the steady state no tick attempts a post 20 hours after the last
    one while [now] is before the target, and every tick that is not
    skipped attempts one 25 hours after the last one. *)
Lemma daily_post_steady_examples (w : Tick) (c : MeditationCog)
    (last_post : datetime) :
  last_post_time (settings c) = Some last_post ->
  was_first_post (settings c) = false ->
  wf_datetime (tick_now w) ->
  let elapsed := instant (tick_now w) - instant last_post in
  exists (r : tick_result) (c' : MeditationCog),
    daily_post w c = (Returned r, c') /\
    (elapsed = 20 * US_PER_HOUR ->
     instant (tick_now w) < instant (replace (tick_now w) 7 30 0 0) ->
     attempted_post r = false) /\
    (elapsed = 25 * US_PER_HOUR ->
     passed_rate_limit r = true -> attempted_post r = true).
Proof.
  intros Hlast Hflag Hwf elapsed.
  pose proof (exact_minute_reflect (tick_now w)) as Hexact.
  pose proof (before_target_not_exact (tick_now w) Hwf) as Hbefore.
  unfold daily_post; cog_unfold.
  destruct (_post_lock c); [by do 2 eexists|].
  cbn [settings set_post_lock _last_post_attempt].
  destruct (channel_id (settings c)); cbn; [|by do 2 eexists].
  destruct (rate_limited _ _); cbn; [by do 2 eexists|].
  set (c1 := set_last_post_attempt _ _).
  destruct (_ && _) eqn:Hminute.
  - destruct (post_daily_message_returns w c1) as (c2 & -> & _).
    do 2 eexists. split; [done|]. split; [|done].
    intros _ Hlt. destruct (Hbefore Hlt). by apply Hexact.
  - rewrite (should_post_steady_eq c1 (tick_now w) last_post Hlast Hflag).
    unfold total_seconds_lt, total_seconds_gt, dt_sub. fold elapsed.
    destruct (negb _ && _) eqn:Hb.
    + destruct (post_daily_message_returns w c1) as (c2 & -> & _).
      do 2 eexists. split; [done|]. split; [|done].
      intros He Hlt. rewrite He in Hb.
      replace (dt_ge _ _) with false in Hb; [vm_compute in Hb; discriminate|].
      symmetry. by apply Z.leb_gt.
    + do 2 eexists. split; [done|]. split; [done|].
      intros He _. rewrite He in Hb.
      rewrite orb_true_r in Hb. vm_compute in Hb. discriminate.
Qed.

(** ** Posting scheduler: the first tick *)

(** C4 as the specification words it fails twice: at 07:30:15 a cog that
    never posted posts through the exact-minute path and keeps
    [was_first_post] false, and a cog without a channel does not post. *)
Lemma first_tick_not_always_first_post :
  last_post_time (settings cog_never_posted) = None /\
  last_post_time (settings cog_fresh) = None /\
  ~ (exists (r : tick_result) (c' : MeditationCog),
       daily_post tick_0730 cog_never_posted = (Returned r, c') /\
       attempted_post r = true /\ was_first_post (settings c') = true) /\
  ~ (exists (r : tick_result) (c' : MeditationCog),
       daily_post tick_1500 cog_fresh = (Returned r, c') /\
       attempted_post r = true /\ was_first_post (settings c') = true).
Proof.
  split_and!; [done | done | |].
  - intros (r & c' & Heq & _ & Hflag). vm_compute in Heq.
    injection Heq as <- <-. discriminate Hflag.
  - intros (r & c' & Heq & Hpost & _). vm_compute in Heq.
    injection Heq as <- <-. discriminate Hpost.
Qed.

(** C4, amended.  Without [last_post_time], [should_post] always accepts
    and raises [was_first_post].  A first tick that is not skipped (lock
    free, channel configured, no attempt in the last five minutes) always
    calls [post_daily_message]: outside the 07:30 minute through
    [should_post], so the flag ends raised; within the 07:30 minute
    through the exact-minute path, which leaves the flag as it was.  When
    the channel resolves and nothing raises, the message goes out and
    [last_post_time] is set. *)
Theorem first_tick_uninitialized (w : Tick) (c : MeditationCog) (ch : Z) :
  last_post_time (settings c) = None ->
  _post_lock c = false ->
  channel_id (settings c) = Some ch ->
  rate_limited (tick_now w) (_last_post_attempt c) = false ->
  should_post (tick_now w) c
  = (Returned true, set_settings (set_was_first_post true (settings c)) c) /\
  exists (r : tick_result) (c' : MeditationCog),
    daily_post w c = (Returned r, c') /\
    attempted_post r = true /\
    (~ exact_minute (tick_now w) ->
     r = RecoveryPost /\ was_first_post (settings c') = true) /\
    (exact_minute (tick_now w) ->
     r = ExactTimePost /\
     was_first_post (settings c') = was_first_post (settings c)) /\
    (channel_found w = true -> fails_at w = None ->
     last_post_time (settings c') = Some (post_now w) /\
     effects c' = effects c ++ [Send ch (daily_message (settings c));
                                AddReaction MAN_LOTUS; AddReaction WOMAN_LOTUS;
                                SaveSettings (settings c')]).
Proof.
  intros Hlast Hlock Hch Hrate.
  split; [by apply should_post_uninitialized|].
  pose proof (exact_minute_reflect (tick_now w)) as Hexact.
  unfold daily_post; cog_unfold. rewrite Hlock.
  cbn [settings set_post_lock _last_post_attempt]. rewrite Hch; cbn.
  rewrite Hrate; cbn.
  set (c1 := set_last_post_attempt _ _).
  assert (Hch1 : channel_id (settings c1) = Some ch) by done.
  destruct (_ && _).
  - assert (Hx : exact_minute (tick_now w)) by (by apply Hexact).
    destruct (post_daily_message_returns w c1) as (c2 & Heq & _ & _ & _ & Hflag & _).
    rewrite Heq. do 2 eexists. split; [reflexivity|].
    split_and!; [done | done | done |].
    intros Hfound Hok.
    destruct (post_daily_message_delivered w c1 ch Hch1 Hfound Hok)
      as (c2' & Heq' & Hs & He).
    rewrite Heq in Heq'. injection Heq' as <-. cbn. by rewrite He, Hs.
  - assert (Hx : ~ exact_minute (tick_now w)).
    { intros Hx. apply Hexact in Hx. discriminate. }
    rewrite (should_post_uninitialized c1) by done.
    set (c2 := set_settings _ c1).
    assert (Hch2 : channel_id (settings c2) = Some ch) by done.
    destruct (post_daily_message_returns w c2) as (c3 & Heq & _ & _ & _ & Hflag & _).
    rewrite Heq. do 2 eexists. split; [reflexivity|].
    split_and!; [done | done | done |].
    intros Hfound Hok.
    destruct (post_daily_message_delivered w c2 ch Hch2 Hfound Hok)
      as (c3' & Heq' & Hs & He).
    rewrite Heq in Heq'. injection Heq' as <-. cbn. by rewrite He, Hs.
Qed.

(** ** Posting scheduler: a send that raises *)

(** A tick whose delivery raises ends normally and leaves
    [last_post_time] as it found it. *)
Lemma daily_post_failed_delivery (w : Tick) (c : MeditationCog) :
  delivery_raises w ->
  exists (r : tick_result) (c' : MeditationCog),
    daily_post w c = (Returned r, c') /\
    last_post_time (settings c') = last_post_time (settings c).
Proof.
  intros Hfail. unfold daily_post; cog_unfold.
  destruct (_post_lock c); [by do 2 eexists|].
  cbn [settings set_post_lock _last_post_attempt].
  destruct (channel_id (settings c)); cbn; [|by do 2 eexists].
  destruct (rate_limited _ _); cbn; [by do 2 eexists|].
  set (c1 := set_last_post_attempt _ _).
  destruct (_ && _).
  - destruct (post_daily_message_failed w c1 Hfail) as (c2 & -> & Hs).
    do 2 eexists. split; [done|]. cbn. by rewrite Hs.
  - destruct (should_post_frame (tick_now w) c1)
      as (b & c2 & -> & _ & _ & _ & _ & Hlast & _).
    destruct b; [|by do 2 eexists].
    destruct (post_daily_message_failed w c2 Hfail) as (c3 & -> & Hs).
    do 2 eexists. split; [done|]. cbn. by rewrite Hs, Hlast.
Qed.

(** A well-formed [now] is less than a day past the midnight of its own
    date, so less than 16.5 hours past its 07:30 target. *)
Lemma now_near_target (now : datetime) :
  wf_datetime now ->
  instant now - instant (replace now 7 30 0 0) < US_PER_DAY - CUTOFF_US.
Proof.
  intros (Hh & Hm & Hs & Hus & _). rewrite instant_replace_cutoff.
  unfold instant, wall_clock, CUTOFF_US in *.
  unfold US_PER_DAY, US_PER_HOUR, US_PER_MINUTE, US_PER_SECOND in *. lia.
Qed.

(** When a post is overdue, [should_post] accepts in all three states. *)
Lemma should_post_overdue (now : datetime) (c : MeditationCog) :
  wf_datetime now -> overdue now (last_post_time (settings c)) ->
  exists c' : MeditationCog, should_post now c = (Returned true, c').
Proof.
  intros Hwf Hdue. pose proof (now_near_target now Hwf) as Hnear.
  destruct (last_post_time (settings c)) as [last_post|] eqn:Hlast;
    [|eexists; by apply should_post_uninitialized].
  destruct Hdue as [Hday Htarget].
  assert (Hcross : crossed_target now last_post).
  { split; [done|]. revert Hnear Hday.
    unfold CUTOFF_US, US_PER_DAY, US_PER_HOUR, US_PER_MINUTE, US_PER_SECOND. lia. }
  apply crossed_target_reflect in Hcross.
  destruct (was_first_post (settings c)) eqn:Hflag.
  - rewrite (should_post_first_eq c now last_post Hlast Hflag), Hcross.
    by eexists.
  - rewrite (should_post_steady_eq c now last_post Hlast Hflag), Hcross.
    exists c. do 2 f_equal. rewrite orb_true_l, andb_true_r.
    apply negb_true_iff, Z.ltb_ge. unfold dt_sub.
    destruct thresholds_in_us as (-> & _). revert Hday.
    unfold HOURS_23_5, US_PER_HOUR, US_PER_MINUTE, US_PER_SECOND. lia.
Qed.

(** A tick that is not skipped attempts a post when one is overdue. *)
Lemma daily_post_overdue (w : Tick) (c : MeditationCog) :
  _post_lock c = false -> channel_id (settings c) <> None ->
  rate_limited (tick_now w) (_last_post_attempt c) = false ->
  wf_datetime (tick_now w) ->
  overdue (tick_now w) (last_post_time (settings c)) ->
  exists (r : tick_result) (c' : MeditationCog),
    daily_post w c = (Returned r, c') /\ attempted_post r = true.
Proof.
  intros Hlock Hch Hrate Hwf Hdue. unfold daily_post; cog_unfold.
  rewrite Hlock. cbn [settings set_post_lock _last_post_attempt].
  destruct (channel_id (settings c)); [clear Hch|done]. cbn.
  rewrite Hrate; cbn. set (c1 := set_last_post_attempt _ _).
  destruct (_ && _).
  - destruct (post_daily_message_returns w c1) as (c2 & -> & _). by do 2 eexists.
  - destruct (should_post_overdue (tick_now w) c1 Hwf Hdue) as (c2 & ->).
    destruct (post_daily_message_returns w c2) as (c3 & -> & _). by do 2 eexists.
Qed.

(** C5.  When the send (or an [add_reaction] after it) raises,
    [post_daily_message] still returns and has written no setting; the
    tick returns as well, with [last_post_time] as before.  If that tick
    was a posting attempt, any later tick at least five minutes after it
    at which a post is overdue with respect to the unchanged
    [last_post_time] attempts the post again. *)
Theorem send_failure_contained (w : Tick) (c : MeditationCog) :
  delivery_raises w ->
  (exists c' : MeditationCog,
     post_daily_message w c = (Returned tt, c') /\ settings c' = settings c) /\
  exists (r : tick_result) (c' : MeditationCog),
    daily_post w c = (Returned r, c') /\
    last_post_time (settings c') = last_post_time (settings c) /\
    (attempted_post r = true ->
     forall w' : Tick,
       wf_datetime (tick_now w') ->
       5 * US_PER_MINUTE <= instant (tick_now w') - instant (tick_now w) ->
       overdue (tick_now w') (last_post_time (settings c)) ->
       exists (r' : tick_result) (c'' : MeditationCog),
         daily_post w' c' = (Returned r', c'') /\ attempted_post r' = true).
Proof.
  intros Hfail. split; [by apply post_daily_message_failed|].
  destruct (daily_post_failed_delivery w c Hfail) as (r & c' & Heq & Hlast).
  exists r, c'. split_and!; [done | done |].
  intros Hpost w' Hwf Hlater Hdue.
  destruct (daily_post_step w c) as (r0 & c0 & Heq0 & Hstep).
  rewrite Heq in Heq0. injection Heq0 as <- <-.
  destruct Hstep as [[Hskip _] | (_ & _ & Hch & _ & Hatt & Hlock & Hk)];
    [by destruct r|].
  apply daily_post_overdue; [done | by rewrite Hk | | done | by rewrite Hlast].
  rewrite Hatt. unfold rate_limited, total_seconds_lt, dt_sub.
  apply Z.ltb_ge. by destruct thresholds_in_us as (_ & _ & ->).
Qed.

(** ** Record store and streaks *)

Global Instance later_or_same_trans : Transitive later_or_same.
Proof. unfold later_or_same. intros a b d. lia. Qed.
Global Instance later_or_same_total : Total later_or_same.
Proof. unfold later_or_same. intros a b. lia. Qed.
Global Instance later_or_same_antisymm : AntiSymm (=) later_or_same.
Proof. unfold later_or_same. intros a b. lia. Qed.

Section query.
Context (user : Z) (table : gset Row).

(** The query returns exactly the days of the user's rows, *)
Lemma elem_of_select_dates_desc (day : date) :
  day ∈ select_dates_desc user table <-> (user, day) ∈ table.
Proof.
  unfold select_dates_desc. rewrite merge_sort_Permutation, list_elem_of_fmap.
  split.
  - intros ([u d] & -> & Hin). apply elem_of_elements, elem_of_filter in Hin.
    cbn in Hin. by destruct Hin as [-> Hin].
  - intros Hin. exists (user, day). split; [done|].
    by apply elem_of_elements, elem_of_filter.
Qed.

(** each once (the primary key), *)
Lemma NoDup_select_dates_desc : NoDup (select_dates_desc user table).
Proof.
  unfold select_dates_desc. rewrite merge_sort_Permutation.
  apply NoDup_fmap_2_strong; [|apply NoDup_elements].
  intros [u1 d1] [u2 d2] Hin1 Hin2 Heq; cbn in Heq; subst.
  apply elem_of_elements, elem_of_filter in Hin1, Hin2.
  cbn in Hin1, Hin2. destruct Hin1 as [-> _], Hin2 as [-> _]. done.
Qed.

(** latest first. *)
Lemma Sorted_select_dates_desc :
  StronglySorted later_or_same (select_dates_desc user table).
Proof. apply StronglySorted_merge_sort; apply _. Qed.

(** So a descending duplicate-free list of the user's days is the answer. *)
Lemma select_dates_desc_unique (dates : list date) :
  StronglySorted later_or_same dates -> NoDup dates ->
  (forall day, day ∈ dates <-> (user, day) ∈ table) ->
  select_dates_desc user table = dates.
Proof.
  intros Hsorted Hnodup Hdays.
  apply (StronglySorted_unique later_or_same);
    [apply Sorted_select_dates_desc | done |].
  apply NoDup_Permutation; [apply NoDup_select_dates_desc | done |].
  intros day. by rewrite elem_of_select_dates_desc, Hdays.
Qed.
End query.

(** The loop counts from its starting value and never decreases it. *)
Lemma streak_loop_ge (dates : list date) :
  forall streak expected_date, streak <= streak_loop dates streak expected_date.
Proof.
  induction dates as [|d dates IH]; intros streak expected_date; cbn; [lia|].
  destruct (_ =? _); [|lia]. specialize (IH (streak + 1) d). lia.
Qed.

(** C7.  [get_streak] answers 0 for a user without rows and 3 for a user
    whose days are exactly [D], [D - 1], [D - 2] and [D - 5]; the
    reference day it is given never enters the answer. *)
Theorem get_streak_examples :
  (forall (c : MeditationCog) (user today : Z),
     (forall day, (user, day) ∉ db c) ->
     get_streak user today c = (Returned 0, c)) /\
  (forall (c : MeditationCog) (user today : Z) (D : date),
     (forall day, (user, day) ∈ db c <-> day ∈ [D; D - 1; D - 2; D - 5]) ->
     get_streak user today c = (Returned 3, c)) /\
  (forall (c : MeditationCog) (user today today' : Z),
     get_streak user today c = get_streak user today' c).
Proof.
  split_and!.
  - intros c user today Hnone. unfold get_streak; cog_unfold.
    rewrite (select_dates_desc_unique user (db c) []); [done | constructor.. |].
    intros day. split; [by intros ?%elem_of_nil | by intros ?%Hnone].
  - intros c user today D Hdays. unfold get_streak; cog_unfold.
    rewrite (select_dates_desc_unique user (db c) [D; D - 1; D - 2; D - 5]).
    + cbn. rewrite Z.eqb_refl.
      replace (D - 1 - 1 =? D - 2) with true by (symmetry; apply Z.eqb_eq; lia).
      replace (D - 2 - 1 =? D - 5) with false by (symmetry; apply Z.eqb_neq; lia).
      done.
    + repeat (constructor; [| repeat constructor; unfold later_or_same; lia]).
      constructor.
    + repeat (constructor; [rewrite ?elem_of_cons, elem_of_nil; lia|]).
      constructor.
    + intros day. by rewrite Hdays.
  - done.
Qed.

(** ** Check-in events *)

Lemma insert_or_replace_union (row : Row) (table : gset Row) :
  insert_or_replace row table = table ∪ {[ row ]}.
Proof.
  unfold insert_or_replace. apply set_eq. intros r.
  rewrite !elem_of_union, elem_of_difference, elem_of_singleton.
  destruct (decide (r = row)); tauto.
Qed.

Lemma delete_where_difference (user : Z) (day : date) (table : gset Row) :
  delete_where user day table = table ∖ {[ (user, day) ]}.
Proof.
  unfold delete_where. apply set_eq. intros [u d].
  rewrite elem_of_filter, elem_of_difference, elem_of_singleton. cbn.
  split.
  - intros [Hne Hin]. split; [done|]. intros [= -> ->]. by apply Hne.
  - intros [Hin Hne]. split; [|done]. intros [-> ->]. by apply Hne.
Qed.

Lemma union_present (row : Row) (table : gset Row) :
  row ∈ table -> table ∪ {[ row ]} = table.
Proof.
  intros Hin. apply set_eq. intros r.
  rewrite elem_of_union, elem_of_singleton. split; [by intros [? | ->] | by left].
Qed.

Lemma difference_absent (row : Row) (table : gset Row) :
  row ∉ table -> table ∖ {[ row ]} = table.
Proof.
  intros Hout. apply set_eq. intros r.
  rewrite elem_of_difference, elem_of_singleton. split; [by intros [? _]|].
  intros Hin. split; [done|]. by intros ->.
Qed.

Lemma elem_of_union_singleton (row : Row) (table : gset Row) :
  row ∈ table ∪ {[ row ]}.
Proof. apply elem_of_union. right. by apply elem_of_singleton. Qed.

Lemma insert_or_replace_idempotent (row : Row) (table : gset Row) :
  insert_or_replace row (insert_or_replace row table)
  = insert_or_replace row table.
Proof.
  rewrite !insert_or_replace_union.
  apply union_present, elem_of_union_singleton.
Qed.

Lemma delete_where_absent (user : Z) (day : date) (table : gset Row) :
  (user, day) ∉ table -> delete_where user day table = table.
Proof. rewrite delete_where_difference. apply difference_absent. Qed.

Lemma set_db_same (c : MeditationCog) : set_db (db c) c = c.
Proof. by destruct c. Qed.

(** A check-in on a message whose age has at most two whole days is
    recorded, on the logical day of the message. *)
Lemma on_raw_reaction_add_records (env : ReactionEnv) (payload : Payload)
    (message : Message) (c : MeditationCog) :
  check_in_event env payload message c ->
  user_id payload <> bot_user env ->
  days (dt_sub (reaction_now env) (created_at message)) <= 2 ->
  on_raw_reaction_add env payload c
  = (Returned tt,
     set_db (db c ∪ {[ (user_id payload,
                        get_meditation_date (created_at message)) ]}) c).
Proof.
  intros (Hfetch & Hmsg & Hemoji) Hbot Hage.
  unfold on_raw_reaction_add; cog_unfold.
  apply Z.eqb_neq in Hbot. rewrite Hbot, Hfetch, Hmsg, Hemoji. cbn.
  replace (_ >? 2) with false by (symmetry; rewrite Z.gtb_ltb; by apply Z.ltb_ge).
  by rewrite insert_or_replace_union.
Qed.

(** A check-in on a message whose age has more than two whole days is
    not recorded; the reaction is taken off instead. *)
Lemma on_raw_reaction_add_rejects (env : ReactionEnv) (payload : Payload)
    (message : Message) (c : MeditationCog) :
  check_in_event env payload message c ->
  user_id payload <> bot_user env ->
  remove_reaction_fails env = false ->
  2 < days (dt_sub (reaction_now env) (created_at message)) ->
  on_raw_reaction_add env payload c
  = (Returned tt,
     add_effect (RemoveReaction (emoji payload) (user_id payload)) c).
Proof.
  intros (Hfetch & Hmsg & Hemoji) Hbot Hremove Hage.
  unfold on_raw_reaction_add; cog_unfold.
  apply Z.eqb_neq in Hbot. rewrite Hbot, Hfetch, Hmsg, Hemoji, Hremove. cbn.
  by replace (_ >? 2) with true by (symmetry; rewrite Z.gtb_ltb; by apply Z.ltb_lt).
Qed.

(** Taking the last check-in reaction off deletes the row of the logical
    day of the message. *)
Lemma on_raw_reaction_remove_deletes (env : ReactionEnv) (payload : Payload)
    (message : Message) (c : MeditationCog) :
  check_in_event env payload message c ->
  still_reacted (user_id payload) message = false ->
  on_raw_reaction_remove env payload c
  = (Returned tt,
     set_db (db c ∖ {[ (user_id payload,
                        get_meditation_date (created_at message)) ]}) c).
Proof.
  intros (Hfetch & Hmsg & Hemoji) Hgone.
  unfold on_raw_reaction_remove; cog_unfold.
  rewrite Hfetch, Hmsg, Hemoji, Hgone. cbn.
  by rewrite delete_where_difference.
Qed.

(** The handlers never write the settings. *)
Lemma on_raw_reaction_add_settings (env : ReactionEnv) (payload : Payload)
    (c : MeditationCog) :
  settings (on_raw_reaction_add env payload c).2 = settings c.
Proof.
  unfold on_raw_reaction_add; cog_unfold.
  repeat match goal with
         | |- context [if ?b then _ else _] => destruct b
         | |- context [match ?o with Some _ => _ | None => _ end] => destruct o
         end; done.
Qed.

(** C8, on the input where it fails: a check-in two days and 23 hours
    after the message, three calendar dates later, is recorded and the
    reaction stays. *)
Lemma late_reaction_recorded :
  dt_sub (reaction_now late_reaction_env) (created_at prompt_message)
  = 2 * US_PER_DAY + 23 * US_PER_HOUR /\
  ordinal (reaction_now late_reaction_env) - ordinal (created_at prompt_message) = 3 /\
  on_raw_reaction_add late_reaction_env reaction_by_7 cog_never_posted
  = (Returned tt, set_db {[ (7, 739000) ]} cog_never_posted).
Proof. split_and!; [done | done |]. vm_compute. reflexivity. Qed.

Lemma check_in_event_settings (env : ReactionEnv) (payload : Payload)
    (message : Message) (c c' : MeditationCog) :
  settings c' = settings c ->
  check_in_event env payload message c -> check_in_event env payload message c'.
Proof. unfold check_in_event. by intros ->. Qed.

(** C9.  [INSERT OR REPLACE] of a row that is already there and [DELETE]
    of a row that is not there both leave the table as it is.  So a
    check-in that is delivered a second time returns without an error and
    leaves the cog as the first one left it, and taking a reaction off
    when no row is recorded returns without an error and changes
    nothing. *)
Theorem record_idempotent_remove_absent :
  (forall (row : Row) (table : gset Row),
     insert_or_replace row (insert_or_replace row table)
     = insert_or_replace row table) /\
  (forall (user : Z) (day : date) (table : gset Row),
     (user, day) ∉ table -> delete_where user day table = table) /\
  (forall (env : ReactionEnv) (payload : Payload) (message : Message)
          (c : MeditationCog),
     check_in_event env payload message c ->
     user_id payload <> bot_user env ->
     days (dt_sub (reaction_now env) (created_at message)) <= 2 ->
     exists c1 : MeditationCog,
       on_raw_reaction_add env payload c = (Returned tt, c1) /\
       (user_id payload, get_meditation_date (created_at message)) ∈ db c1 /\
       on_raw_reaction_add env payload c1 = (Returned tt, c1)) /\
  (forall (env : ReactionEnv) (payload : Payload) (message : Message)
          (c : MeditationCog),
     check_in_event env payload message c ->
     still_reacted (user_id payload) message = false ->
     (user_id payload, get_meditation_date (created_at message)) ∉ db c ->
     on_raw_reaction_remove env payload c = (Returned tt, c)).
Proof.
  split_and!.
  - apply insert_or_replace_idempotent.
  - apply delete_where_absent.
  - intros env payload message c Hevent Hbot Hage.
    eexists. split; [by apply on_raw_reaction_add_records|].
    split; [apply elem_of_union_singleton|].
    rewrite (on_raw_reaction_add_records env payload message);
      [|by eapply check_in_event_settings | done..].
    destruct c; unfold set_db; cbn.
    by rewrite (union_present _ _ (elem_of_union_singleton _ _)).
  - intros env payload message c Hevent Hgone Habsent.
    rewrite (on_raw_reaction_remove_deletes env payload message) by done.
    rewrite difference_absent by done. by rewrite set_db_same.
Qed.

(** C10.  Two check-in events on the same message, whoever reacts and
    whenever the reactions arrive, are attributed one and the same day:
    the logical day of the creation instant of the message.  That is the
    day of the row an accepted reaction records and of the row a
    withdrawn reaction deletes. *)
Theorem check_in_day_of_message (env1 env2 : ReactionEnv) (p1 p2 : Payload)
    (m1 m2 : Message) (c1 c2 : MeditationCog) :
  check_in_event env1 p1 m1 c1 ->
  check_in_event env2 p2 m2 c2 ->
  created_at m1 = created_at m2 ->
  let day := get_meditation_date (created_at m1) in
  (user_id p1 <> bot_user env1 ->
   days (dt_sub (reaction_now env1) (created_at m1)) <= 2 ->
   on_raw_reaction_add env1 p1 c1
   = (Returned tt, set_db (db c1 ∪ {[ (user_id p1, day) ]}) c1)) /\
  (user_id p2 <> bot_user env2 ->
   days (dt_sub (reaction_now env2) (created_at m2)) <= 2 ->
   on_raw_reaction_add env2 p2 c2
   = (Returned tt, set_db (db c2 ∪ {[ (user_id p2, day) ]}) c2)) /\
  (still_reacted (user_id p1) m1 = false ->
   on_raw_reaction_remove env1 p1 c1
   = (Returned tt, set_db (db c1 ∖ {[ (user_id p1, day) ]}) c1)) /\
  (still_reacted (user_id p2) m2 = false ->
   on_raw_reaction_remove env2 p2 c2
   = (Returned tt, set_db (db c2 ∖ {[ (user_id p2, day) ]}) c2)).
Proof.
  intros Hevent1 Hevent2 Hsame day. subst day. split_and!.
  - by apply on_raw_reaction_add_records.
  - rewrite Hsame. by apply on_raw_reaction_add_records.
  - by apply on_raw_reaction_remove_deletes.
  - rewrite Hsame. by apply on_raw_reaction_remove_deletes.
Qed.

(** ** The statements at concrete inputs *)

(** C1 at a last post 25 hours back, half an hour before the target. *)
Lemma should_post_steady_witness :
  last_post_time (settings cog_steady) = Some (utc 738999 6 0 0) /\
  was_first_post (settings cog_steady) = false /\
  should_post (utc 739000 7 0 0) cog_steady = (Returned true, cog_steady).
Proof.
  split; [reflexivity|]. split; [reflexivity|].
  destruct (should_post_steady cog_steady (utc 739000 7 0 0) (utc 738999 6 0 0)
              eq_refl eq_refl) as (b & Heq & _ & _ & _ & H25).
  rewrite Heq. rewrite (H25 eq_refl). reflexivity.
Defined.

(** C2 at two ticks two minutes apart: the second is stopped. *)
Lemma rate_limit_one_per_window_witness :
  (run [tick_1500; tick_1502] cog_never_posted).1
  = [Returned RecoveryPost; Returned SkippedRateLimit] /\
  ~ (passed_rate_limit RecoveryPost = true /\
     passed_rate_limit SkippedRateLimit = true).
Proof.
  split; [vm_compute; reflexivity|].
  apply (proj1 rate_limit_one_per_window [tick_1500; tick_1502]
           cog_never_posted 0%nat 1%nat tick_1500 tick_1502);
    [lia | reflexivity | reflexivity | vm_compute; reflexivity
     | vm_compute; reflexivity | vm_compute; reflexivity].
Defined.

(** C3 at 08:00 on the day after a first post at 15:00. *)
Lemma should_post_after_first_witness :
  last_post_time (settings cog_posted_first) = Some (utc 738999 15 0 0) /\
  was_first_post (settings cog_posted_first) = true /\
  exists c' : MeditationCog,
    should_post (utc 739000 8 0 0) cog_posted_first = (Returned true, c') /\
    was_first_post (settings c') = false.
Proof.
  split; [reflexivity|]. split; [reflexivity|].
  destruct (should_post_after_first cog_posted_first (utc 739000 8 0 0)
              (utc 738999 15 0 0) eq_refl eq_refl)
    as (b & c' & Heq & Hb & Hclear & _).
  assert (Hcross : crossed_target (utc 739000 8 0 0) (utc 738999 15 0 0)).
  { split; vm_compute; [discriminate | reflexivity]. }
  exists c'. rewrite Heq, (proj2 Hb Hcross).
  split; [reflexivity | exact (proj2 (Hclear Hcross))].
Defined.

(** C4, amended, at a first tick at 15:00. *)
Lemma first_tick_uninitialized_witness :
  exists (r : tick_result) (c' : MeditationCog),
    daily_post tick_1500 cog_never_posted = (Returned r, c') /\
    r = RecoveryPost /\ was_first_post (settings c') = true /\
    last_post_time (settings c') = Some (post_now tick_1500).
Proof.
  destruct (first_tick_uninitialized tick_1500 cog_never_posted 42
              eq_refl eq_refl eq_refl eq_refl)
    as (_ & r & c' & Heq & _ & Hrecovery & _ & Hsent).
  assert (Hnot : ~ exact_minute (tick_now tick_1500)).
  { intros [Hh _]. vm_compute in Hh. discriminate. }
  exists r, c'. split; [exact Heq|].
  split; [exact (proj1 (Hrecovery Hnot))|].
  split; [exact (proj2 (Hrecovery Hnot)) | exact (proj1 (Hsent eq_refl eq_refl))].
Defined.

(** C5 at a first tick whose send raises. *)
Lemma send_failure_contained_witness :
  delivery_raises tick_1500_send_raises /\
  exists (r : tick_result) (c' : MeditationCog),
    daily_post tick_1500_send_raises cog_never_posted = (Returned r, c') /\
    last_post_time (settings c') = None.
Proof.
  assert (Hfail : delivery_raises tick_1500_send_raises) by (left; reflexivity).
  split; [exact Hfail|].
  destruct (send_failure_contained tick_1500_send_raises cog_never_posted Hfail)
    as (_ & r & c' & Heq & Hlast & _).
  exists r, c'. split; [exact Heq | exact Hlast].
Defined.

(** C6 at 09:00 two hours east of UTC, which is 07:00 UTC. *)
Lemma logical_day_cutoff_witness :
  739000 * US_PER_DAY <= instant nine_oclock_plus_two < (739000 + 1) * US_PER_DAY /\
  get_meditation_date nine_oclock_plus_two = 739000 - 1.
Proof.
  assert (Hday : 739000 * US_PER_DAY <= instant nine_oclock_plus_two
                 < (739000 + 1) * US_PER_DAY).
  { split; vm_compute; [discriminate | reflexivity]. }
  split; [exact Hday|].
  destruct (logical_day_cutoff nine_oclock_plus_two 739000 Hday)
    as (_ & _ & Hbefore & _).
  apply Hbefore. vm_compute. reflexivity.
Defined.

(** C7 at user 7 of [table_gap], whose days are 100, 99, 98 and 95. *)
Lemma get_streak_examples_witness :
  (forall day, (7, day) ∈ db cog_gap <-> day ∈ [100; 100 - 1; 100 - 2; 100 - 5]) /\
  get_streak 7 100 cog_gap = (Returned 3, cog_gap).
Proof.
  assert (Hdays : forall day,
             (7, day) ∈ db cog_gap <-> day ∈ [100; 100 - 1; 100 - 2; 100 - 5]).
  { intros day. cbn [db cog_gap]. unfold table_gap.
    rewrite !elem_of_union, !elem_of_singleton, !elem_of_cons, elem_of_nil.
    split.
    - intros [[[[[= ->] | [= ->]] | [= ->]] | [= ->]] | [= ?]]; tauto.
    - intros [-> | [-> | [-> | [-> | []]]]]; tauto. }
  split; [exact Hdays|].
  exact (proj1 (proj2 get_streak_examples) cog_gap 7 100 100 Hdays).
Defined.

Lemma prompt_check_in (env : ReactionEnv) (payload : Payload) :
  bot_user env = 1 -> fetch_message env = Some prompt_message ->
  is_meditation_emoji (emoji payload) = true ->
  check_in_event env payload prompt_message cog_never_posted.
Proof. intros Hbot Hfetch Hemoji. unfold check_in_event, not_meditation_message. by rewrite Hbot. Qed.

(** C9 at a check-in by user 7 one hour after the message, delivered
    twice. *)
Lemma record_idempotent_remove_absent_witness :
  exists c1 : MeditationCog,
    on_raw_reaction_add early_reaction_env reaction_by_7 cog_never_posted
    = (Returned tt, c1) /\
    (7, 739000) ∈ db c1 /\
    on_raw_reaction_add early_reaction_env reaction_by_7 c1 = (Returned tt, c1).
Proof.
  assert (Hevent : check_in_event early_reaction_env reaction_by_7
                     prompt_message cog_never_posted).
  { apply prompt_check_in; reflexivity. }
  assert (Hbot : user_id reaction_by_7 <> bot_user early_reaction_env).
  { intros Heq. vm_compute in Heq. discriminate. }
  assert (Hage : days (dt_sub (reaction_now early_reaction_env)
                              (created_at prompt_message)) <= 2).
  { vm_compute. discriminate. }
  exact (proj1 (proj2 (proj2 record_idempotent_remove_absent))
           early_reaction_env reaction_by_7 prompt_message cog_never_posted
           Hevent Hbot Hage).
Defined.

(** C10 at users 7 and 8 reacting to the same message a day apart: both
    rows carry day 739000, the day of the message, while the second
    reaction itself happened on logical day 739001. *)
Lemma check_in_day_of_message_witness :
  get_meditation_date (reaction_now next_day_reaction_env) = 739001 /\
  on_raw_reaction_add early_reaction_env reaction_by_7 cog_never_posted
  = (Returned tt, set_db (∅ ∪ {[ (7, 739000) ]}) cog_never_posted) /\
  on_raw_reaction_add next_day_reaction_env reaction_by_8 cog_never_posted
  = (Returned tt, set_db (∅ ∪ {[ (8, 739000) ]}) cog_never_posted).
Proof.
  assert (Hevent1 : check_in_event early_reaction_env reaction_by_7
                      prompt_message cog_never_posted).
  { apply prompt_check_in; reflexivity. }
  assert (Hevent2 : check_in_event next_day_reaction_env reaction_by_8
                      prompt_message cog_never_posted).
  { apply prompt_check_in; reflexivity. }
  destruct (check_in_day_of_message early_reaction_env next_day_reaction_env
              reaction_by_7 reaction_by_8 prompt_message prompt_message
              cog_never_posted cog_never_posted Hevent1 Hevent2 eq_refl)
    as (Hadd1 & Hadd2 & _).
  split; [vm_compute; reflexivity|]. split.
  - apply Hadd1; [intros Heq; vm_compute in Heq; discriminate
                 | vm_compute; discriminate].
  - apply Hadd2; [intros Heq; vm_compute in Heq; discriminate
                 | vm_compute; discriminate].
Defined.

(** * Further properties *)

(** ** Time attribution: the shape of a logical day *)

(** X1.  [get_meditation_date] never goes back in time: a later instant is
    attributed to the same or a later day, whatever zones the two
    datetimes are written in. *)
Theorem logical_day_monotone (dt1 dt2 : datetime) :
  instant dt1 <= instant dt2 ->
  get_meditation_date dt1 <= get_meditation_date dt2.
Proof.
  intros Hle. rewrite !get_meditation_date_closed.
  apply Z.div_le_mono; [reflexivity | lia].
Qed.

(** X2.  Logical day [D] is exactly the 24 hours from 07:30:00.000 UTC on
    date [D] up to, and excluding, 07:30:00.000 UTC on date [D + 1]. *)
Theorem logical_day_window (timestamp : datetime) (D : date) :
  get_meditation_date timestamp = D <->
  D * US_PER_DAY + CUTOFF_US <= instant timestamp
  < (D + 1) * US_PER_DAY + CUTOFF_US.
Proof.
  rewrite get_meditation_date_closed.
  unfold CUTOFF_US, US_PER_DAY, US_PER_HOUR, US_PER_MINUTE, US_PER_SECOND.
  split.
  - intros <-. Z.div_mod_to_equations. lia.
  - intros Hwin. Z.div_mod_to_equations. lia.
Qed.

(** ** Streaks: what the number means *)

(** The days of one user come out of the query strictly descending. *)
Lemma strictly_descending (dates : list date) :
  StronglySorted later_or_same dates -> NoDup dates ->
  StronglySorted (fun a b => b < a) dates.
Proof.
  induction 1 as [|d dates Hsorted IH Hall]; intros Hnodup; constructor.
  - apply IH. by apply NoDup_cons in Hnodup as [_ ?].
  - apply NoDup_cons in Hnodup as [Hnotin _].
    rewrite Forall_forall in Hall |- *. intros d' Hin.
    specialize (Hall d' Hin). unfold later_or_same in Hall.
    assert (d' <> d) by (by intros ->). lia.
Qed.

(** The loop adds to its counter the length of the run of consecutive
    days that follows [expected_date]. *)
Lemma streak_loop_run (dates : list date) :
  forall (streak expected_date : Z),
    StronglySorted (fun a b => b < a) (expected_date :: dates) ->
    exists k : Z,
      0 <= k /\ streak_loop dates streak expected_date = streak + k /\
      (forall i, 1 <= i <= k -> expected_date - i ∈ dates) /\
      expected_date - (k + 1) ∉ dates.
Proof.
  induction dates as [|d dates IH]; intros streak e Hsorted.
  { exists 0. split_and!; [lia | cbn; lia | lia |]. by intros ?%elem_of_nil. }
  apply StronglySorted_inv in Hsorted as [Htail Hall].
  apply Forall_cons in Hall as [Hd Hall]. cbn.
  destruct (Z.eqb_spec (e - 1) d) as [<- | Hgap].
  - destruct (IH (streak + 1) (e - 1) Htail) as (k & Hk & -> & Hrun & Hstop).
    exists (k + 1). split_and!; [lia | lia | |].
    + intros i Hi. destruct (decide (i = 1)) as [-> | Hne]; [by left|].
      right. replace (e - i) with (e - 1 - (i - 1)) by lia. apply Hrun. lia.
    + replace (e - (k + 1 + 1)) with (e - 1 - (k + 1)) by lia.
      intros [Heq | Hin]%elem_of_cons; [lia | done].
  - exists 0. split_and!; [lia | lia | lia |].
    apply StronglySorted_inv in Htail as [_ Hbelow].
    rewrite Forall_forall in Hall, Hbelow.
    intros [Heq | Hin]%elem_of_cons; [lia|].
    specialize (Hbelow _ Hin). cbn in Hbelow. lia.
Qed.

Lemma streak_loop_shift (dates : list date) :
  forall (streak expected_date : Z),
    streak_loop dates (streak + 1) expected_date
    = streak_loop dates streak expected_date + 1.
Proof.
  induction dates as [|d dates IH]; intros streak e; cbn; [done|].
  destruct (_ =? _); [apply IH | done].
Qed.

(** The streak as a function of the table. *)
Lemma get_streak_eq (user today : Z) (c : MeditationCog) :
  get_streak user today c
  = (Returned match select_dates_desc user (db c) with
              | [] => 0
              | first :: rest => streak_loop rest 1 first
              end, c).
Proof.
  unfold get_streak; cog_unfold. by destruct (select_dates_desc user (db c)).
Qed.

(** X3.  What [get_streak] counts.  It returns 0 exactly for a user
    without rows.  Otherwise it returns the number [n >= 1] such that,
    with [latest] the user's latest recorded day, the days [latest],
    [latest - 1], ..., [latest - (n - 1)] are all recorded and
    [latest - n] is not. *)
Theorem get_streak_meaning (user today : Z) (c : MeditationCog) :
  exists n : Z,
    get_streak user today c = (Returned n, c) /\
    0 <= n /\
    (n = 0 <-> forall day, (user, day) ∉ db c) /\
    (0 < n ->
     exists latest : date,
       (user, latest) ∈ db c /\
       (forall day, (user, day) ∈ db c -> day <= latest) /\
       (forall i, 0 <= i < n -> (user, latest - i) ∈ db c) /\
       (user, latest - n) ∉ db c).
Proof.
  rewrite get_streak_eq. eexists. split; [reflexivity|].
  pose proof (elem_of_select_dates_desc user (db c)) as Hin.
  pose proof (strictly_descending _ (Sorted_select_dates_desc user (db c))
                (NoDup_select_dates_desc user (db c))) as Hsorted.
  destruct (select_dates_desc user (db c)) as [|first rest].
  { split_and!; [done | | lia].
    split; [|done]. intros _ day Hday%Hin. by apply elem_of_nil in Hday. }
  destruct (streak_loop_run rest 1 first Hsorted) as (k & Hk & -> & Hrun & Hstop).
  split_and!; [lia | |].
  { split; [lia|]. intros Hnone. destruct (Hnone first). apply Hin. by left. }
  intros _. exists first. split_and!.
  - apply Hin. by left.
  - intros day [-> | Hday]%Hin%elem_of_cons; [lia|].
    apply StronglySorted_inv in Hsorted as [_ Hbelow].
    rewrite Forall_forall in Hbelow. specialize (Hbelow _ Hday). cbn in Hbelow. lia.
  - intros i Hi. apply Hin. destruct (decide (i = 0)) as [-> | Hne].
    + rewrite Z.sub_0_r. by left.
    + right. apply Hrun. lia.
  - intros [Heq | Hday]%Hin%elem_of_cons; [lia|].
    by replace (first - (1 + k)) with (first - (k + 1)) in Hday by lia.
Qed.

(** ** Check-in events: when the table changes, and for whom *)

(** Every way [on_raw_reaction_add] can end. *)
Lemma on_raw_reaction_add_cases (env : ReactionEnv) (payload : Payload)
    (c : MeditationCog) :
  exists (r : outcome unit) (c' : MeditationCog),
    on_raw_reaction_add env payload c = (r, c') /\
    settings c' = settings c /\
    _last_post_attempt c' = _last_post_attempt c /\
    _post_lock c' = _post_lock c /\
    ((db c' = db c /\ effects c' = effects c) \/
     (exists message : Message,
        check_in_event env payload message c /\
        user_id payload <> bot_user env /\
        ((days (dt_sub (reaction_now env) (created_at message)) <= 2 /\
          r = Returned tt /\
          db c' = db c ∪ {[ (user_id payload,
                             get_meditation_date (created_at message)) ]} /\
          effects c' = effects c) \/
         (2 < days (dt_sub (reaction_now env) (created_at message)) /\
          remove_reaction_fails env = false /\
          r = Returned tt /\
          db c' = db c /\
          effects c' = effects c ++ [RemoveReaction (emoji payload)
                                                    (user_id payload)])))).
Proof.
  unfold on_raw_reaction_add; cog_unfold.
  destruct (Z.eqb_spec (user_id payload) (bot_user env)) as [Hbot | Hbot];
    [do 2 eexists; split_and!; [done..|by left]|].
  destruct (fetch_message env) as [message|] eqn:Hfetch;
    [|do 2 eexists; split_and!; [done..|by left]].
  cbn. destruct (not_meditation_message env message (settings c)) eqn:Hmsg;
    [do 2 eexists; split_and!; [done..|by left]|].
  destruct (is_meditation_emoji (emoji payload)) eqn:Hemoji; cbn;
    [|do 2 eexists; split_and!; [done..|by left]].
  assert (Hevent : check_in_event env payload message c) by done.
  destruct (Z.gtb_spec (days (dt_sub (reaction_now env) (created_at message))) 2)
    as [Hold | Hyoung].
  - destruct (remove_reaction_fails env) eqn:Hremove;
      [do 2 eexists; split_and!; [done..|by left]|].
    do 2 eexists; split_and!; [done..|right].
    exists message. split_and!; [done..|right]. split_and!; [lia | done..].
  - do 2 eexists; split_and!; [done..|right].
    exists message. split_and!; [done..|left]. split_and!; [done..| |done].
    cbn. by rewrite insert_or_replace_union.
Qed.

(** Every way [on_raw_reaction_remove] can end. *)
Lemma on_raw_reaction_remove_cases (env : ReactionEnv) (payload : Payload)
    (c : MeditationCog) :
  exists (r : outcome unit) (c' : MeditationCog),
    on_raw_reaction_remove env payload c = (r, c') /\
    settings c' = settings c /\
    _last_post_attempt c' = _last_post_attempt c /\
    _post_lock c' = _post_lock c /\
    effects c' = effects c /\
    (db c' = db c \/
     exists message : Message,
       check_in_event env payload message c /\
       still_reacted (user_id payload) message = false /\
       r = Returned tt /\
       db c' = db c ∖ {[ (user_id payload,
                          get_meditation_date (created_at message)) ]}).
Proof.
  unfold on_raw_reaction_remove; cog_unfold.
  destruct (fetch_message env) as [message|] eqn:Hfetch;
    [|do 2 eexists; split_and!; [done..|by left]].
  cbn. destruct (not_meditation_message env message (settings c)) eqn:Hmsg;
    [do 2 eexists; split_and!; [done..|by left]|].
  destruct (is_meditation_emoji (emoji payload)) eqn:Hemoji; cbn;
    [|do 2 eexists; split_and!; [done..|by left]].
  destruct (still_reacted (user_id payload) message) eqn:Hstill;
    [do 2 eexists; split_and!; [done..|by left]|].
  do 2 eexists; split_and!; [done..|right].
  exists message. split_and!; [done..|]. cbn. by rewrite delete_where_difference.
Qed.

(** X4.  The handlers write the table only where the source shows it: a
    row is added only for a check-in emoji put by someone other than the
    bot on the daily message while its age has at most two whole days; a
    reaction is taken off only for such a check-in on an older message;
    a row is deleted only when a check-in emoji is withdrawn from the
    daily message and the user holds no other one.  Nothing else of the
    cog changes. *)
Theorem reaction_handlers_cases (env : ReactionEnv) (payload : Payload)
    (c : MeditationCog) :
  (exists (r : outcome unit) (c' : MeditationCog),
     on_raw_reaction_add env payload c = (r, c') /\
     settings c' = settings c /\
     ((db c' = db c /\ effects c' = effects c) \/
      (exists message : Message,
         check_in_event env payload message c /\
         user_id payload <> bot_user env /\
         ((days (dt_sub (reaction_now env) (created_at message)) <= 2 /\
           db c' = db c ∪ {[ (user_id payload,
                              get_meditation_date (created_at message)) ]} /\
           effects c' = effects c) \/
          (2 < days (dt_sub (reaction_now env) (created_at message)) /\
           db c' = db c /\
           effects c' = effects c ++ [RemoveReaction (emoji payload)
                                                     (user_id payload)]))))) /\
  (exists (r : outcome unit) (c' : MeditationCog),
     on_raw_reaction_remove env payload c = (r, c') /\
     settings c' = settings c /\ effects c' = effects c /\
     (db c' = db c \/
      exists message : Message,
        check_in_event env payload message c /\
        still_reacted (user_id payload) message = false /\
        db c' = db c ∖ {[ (user_id payload,
                           get_meditation_date (created_at message)) ]})).
Proof.
  split.
  - destruct (on_raw_reaction_add_cases env payload c)
      as (r & c' & Heq & Hs & _ & _ & Hcases).
    exists r, c'. split_and!; [done..|].
    destruct Hcases as [? | (message & ? & ? & [(? & _ & ? & ?) | (? & _ & _ & ? & ?)])];
      [by left | right; exists message; split_and!; [done..|by left]
       | right; exists message; split_and!; [done..|by right]].
  - destruct (on_raw_reaction_remove_cases env payload c)
      as (r & c' & Heq & Hs & _ & _ & He & Hcases).
    exists r, c'. split_and!; [done..|].
    destruct Hcases as [? | (message & ? & ? & _ & ?)]; [by left|].
    right. by exists message.
Qed.

(** The rows of every other user stay as they are. *)
Lemma on_raw_reaction_add_other_rows (env : ReactionEnv) (payload : Payload)
    (c : MeditationCog) (user : Z) (day : date) :
  user <> user_id payload ->
  (user, day) ∈ db (on_raw_reaction_add env payload c).2 <-> (user, day) ∈ db c.
Proof.
  intros Hother.
  destruct (on_raw_reaction_add_cases env payload c)
    as (r & c' & -> & _ & _ & _ & Hcases). cbn [snd].
  destruct Hcases
    as [[-> _] | (message & _ & _ & [(_ & _ & -> & _) | (_ & _ & _ & -> & _)])];
    [done | | done].
  rewrite elem_of_union, elem_of_singleton. split; [|by left].
  intros [? | [= ? _]]; done.
Qed.

Lemma on_raw_reaction_remove_other_rows (env : ReactionEnv) (payload : Payload)
    (c : MeditationCog) (user : Z) (day : date) :
  user <> user_id payload ->
  (user, day) ∈ db (on_raw_reaction_remove env payload c).2 <-> (user, day) ∈ db c.
Proof.
  intros Hother.
  destruct (on_raw_reaction_remove_cases env payload c)
    as (r & c' & -> & _ & _ & _ & _ & Hcases). cbn [snd].
  destruct Hcases as [-> | (message & _ & _ & _ & ->)]; [done|].
  rewrite elem_of_difference, elem_of_singleton. split; [by intros [? _]|].
  intros Hin. split; [done|]. by intros [= ? _].
Qed.

(** The answer of the streak query rests on the user's own rows only. *)
Lemma select_dates_desc_ext (user : Z) (t1 t2 : gset Row) :
  (forall day, (user, day) ∈ t1 <-> (user, day) ∈ t2) ->
  select_dates_desc user t1 = select_dates_desc user t2.
Proof.
  intros Hrows. apply select_dates_desc_unique;
    [apply Sorted_select_dates_desc | apply NoDup_select_dates_desc |].
  intros day. by rewrite elem_of_select_dates_desc.
Qed.

(** X5.  Whatever another user does with reactions, and however the
    event ends, my streak stays what it was. *)
Theorem streak_untouched_by_others (env : ReactionEnv) (payload : Payload)
    (c : MeditationCog) (user today : Z) :
  user <> user_id payload ->
  (get_streak user today (on_raw_reaction_add env payload c).2).1
  = (get_streak user today c).1 /\
  (get_streak user today (on_raw_reaction_remove env payload c).2).1
  = (get_streak user today c).1.
Proof.
  intros Hother. rewrite !get_streak_eq. cbn [fst]. split.
  - rewrite (select_dates_desc_ext user _ (db c)); [done|].
    intros day. by apply on_raw_reaction_add_other_rows.
  - rewrite (select_dates_desc_ext user _ (db c)); [done|].
    intros day. by apply on_raw_reaction_remove_other_rows.
Qed.

(** ** Check-ins and streaks together *)

(** A day later than every recorded one goes to the front of the answer. *)
Lemma select_dates_desc_new_latest (user : Z) (day : date) (table : gset Row) :
  (forall d, (user, d) ∈ table -> d < day) ->
  select_dates_desc user (table ∪ {[ (user, day) ]})
  = day :: select_dates_desc user table.
Proof.
  intros Hlatest. apply select_dates_desc_unique.
  - constructor; [apply Sorted_select_dates_desc|].
    apply Forall_forall. intros d Hd%elem_of_select_dates_desc.
    specialize (Hlatest d Hd). unfold later_or_same. lia.
  - constructor; [|apply NoDup_select_dates_desc].
    intros Hd%elem_of_select_dates_desc. specialize (Hlatest day Hd). lia.
  - intros d. rewrite elem_of_cons, elem_of_select_dates_desc,
      elem_of_union, elem_of_singleton.
    split; [intros [-> | ?]; [by right | by left]|].
    intros [? | [= ->]]; [by right | by left].
Qed.

(** The first day of the answer is the latest recorded day. *)
Lemma select_dates_desc_latest (user : Z) (latest : date) (table : gset Row) :
  (user, latest) ∈ table ->
  (forall d, (user, d) ∈ table -> d <= latest) ->
  exists rest : list date, select_dates_desc user table = latest :: rest.
Proof.
  intros Hin Hmax.
  pose proof (elem_of_select_dates_desc user table) as Helem.
  pose proof (Sorted_select_dates_desc user table) as Hsorted.
  destruct (select_dates_desc user table) as [|first rest].
  { apply Helem in Hin. by apply elem_of_nil in Hin. }
  exists rest. f_equal.
  assert (first <= latest) by (apply Hmax, Helem; by left).
  apply Helem, elem_of_cons in Hin as [-> | Hin]; [done|].
  apply StronglySorted_inv in Hsorted as [_ Hbelow].
  rewrite Forall_forall in Hbelow. specialize (Hbelow _ Hin).
  unfold later_or_same in Hbelow. lia.
Qed.

(** X6.  How an accepted check-in moves the streak of the user who made
    it.  A first check-in gives 1.  With [latest] the latest day recorded
    so far: a check-in for the day after [latest] adds one to the streak,
    a check-in for a later day starts over at 1, and a check-in for a day
    that is already recorded changes nothing. *)
Theorem check_in_streak (env : ReactionEnv) (payload : Payload)
    (message : Message) (c : MeditationCog) (today : Z) :
  check_in_event env payload message c ->
  user_id payload <> bot_user env ->
  days (dt_sub (reaction_now env) (created_at message)) <= 2 ->
  let user := user_id payload in
  let day := get_meditation_date (created_at message) in
  let c' := (on_raw_reaction_add env payload c).2 in
  ((forall d, (user, d) ∉ db c) ->
   get_streak user today c' = (Returned 1, c')) /\
  (forall (latest : date) (n : Z),
     (user, latest) ∈ db c ->
     (forall d, (user, d) ∈ db c -> d <= latest) ->
     get_streak user today c = (Returned n, c) ->
     (day = latest + 1 -> get_streak user today c' = (Returned (n + 1), c')) /\
     (latest + 1 < day -> get_streak user today c' = (Returned 1, c')) /\
     ((user, day) ∈ db c -> get_streak user today c' = (Returned n, c'))).
Proof.
  intros Hevent Hbot Hage user day c'. subst c'.
  rewrite (on_raw_reaction_add_records env payload message c) by done.
  cbn [snd]. fold user day. rewrite !get_streak_eq. cbn [db set_db]. split.
  - intros Hnone. rewrite select_dates_desc_new_latest.
    + rewrite (select_dates_desc_unique user (db c) []); [done | constructor.. |].
      intros d. split; [by intros ?%elem_of_nil | by intros ?%Hnone].
    + intros d Hd. by destruct (Hnone d).
  - intros latest n Hin Hmax Hn.
    destruct (select_dates_desc_latest user latest (db c) Hin Hmax)
      as (rest & Hdates).
    rewrite Hdates in Hn. injection Hn as <-. split_and!.
    + intros Hnext. rewrite select_dates_desc_new_latest, Hdates.
      * cbn. replace (day - 1 =? latest) with true
          by (symmetry; apply Z.eqb_eq; lia).
        by rewrite streak_loop_shift.
      * intros d Hd%Hmax. lia.
    + intros Hgap. rewrite select_dates_desc_new_latest, Hdates.
      * cbn. by replace (day - 1 =? latest) with false
          by (symmetry; apply Z.eqb_neq; lia).
      * intros d Hd%Hmax. lia.
    + intros Hthere. by rewrite (union_present _ _ Hthere), Hdates.
Qed.

(** X7.  Putting a check-in reaction on and taking it off again is a
    round trip: when no row was recorded for that user and day before,
    the cog ends exactly as it started, whenever the two events arrive. *)
Theorem check_in_then_withdraw (env1 env2 : ReactionEnv) (p1 p2 : Payload)
    (m1 m2 : Message) (c : MeditationCog) :
  check_in_event env1 p1 m1 c ->
  check_in_event env2 p2 m2 c ->
  user_id p1 = user_id p2 ->
  created_at m1 = created_at m2 ->
  user_id p1 <> bot_user env1 ->
  days (dt_sub (reaction_now env1) (created_at m1)) <= 2 ->
  still_reacted (user_id p2) m2 = false ->
  (user_id p1, get_meditation_date (created_at m1)) ∉ db c ->
  on_raw_reaction_remove env2 p2 (on_raw_reaction_add env1 p1 c).2
  = (Returned tt, c).
Proof.
  intros Hevent1 Hevent2 Huser Hsame Hbot Hage Hgone Habsent.
  rewrite (on_raw_reaction_add_records env1 p1 m1 c) by done. cbn [snd].
  rewrite (on_raw_reaction_remove_deletes env2 p2 m2);
    [|by eapply check_in_event_settings | done].
  rewrite <- Huser, <- Hsame. destruct c as [s a l table e]; unfold set_db; cbn.
  do 2 f_equal. cbn in Habsent. apply set_eq. intros row.
  rewrite elem_of_difference, elem_of_union, elem_of_singleton.
  split; [by intros [[? | ?] ?] | intros Hin; split; [by left | by intros ->]].
Qed.

(** X8.  Withdrawal has no age limit, check-in has one.  On a daily
    message whose age has more than two whole days, taking the last
    check-in reaction off deletes the row, and putting it on again does
    not bring the row back: the reaction is taken off instead. *)
Theorem withdraw_then_check_in_too_late (env1 env2 : ReactionEnv)
    (p1 p2 : Payload) (m1 m2 : Message) (c : MeditationCog) :
  check_in_event env1 p1 m1 c ->
  check_in_event env2 p2 m2 c ->
  user_id p1 = user_id p2 ->
  created_at m1 = created_at m2 ->
  still_reacted (user_id p1) m1 = false ->
  user_id p2 <> bot_user env2 ->
  remove_reaction_fails env2 = false ->
  2 < days (dt_sub (reaction_now env2) (created_at m2)) ->
  let row := (user_id p1, get_meditation_date (created_at m1)) in
  exists c1 c2 : MeditationCog,
    on_raw_reaction_remove env1 p1 c = (Returned tt, c1) /\
    on_raw_reaction_add env2 p2 c1 = (Returned tt, c2) /\
    db c1 = db c ∖ {[ row ]} /\ db c2 = db c1 /\ (row ∉ db c2) /\
    effects c2 = effects c ++ [RemoveReaction (emoji p2) (user_id p2)].
Proof.
  intros Hevent1 Hevent2 Huser Hsame Hgone Hbot Hremove Hold row.
  do 2 eexists. split; [by apply on_raw_reaction_remove_deletes|].
  split; [apply (on_raw_reaction_add_rejects env2 p2 m2);
          [by eapply check_in_event_settings | done..]|].
  cbn. split_and!; [done | done | | done].
  rewrite elem_of_difference, elem_of_singleton. by intros [_ ?].
Qed.

(** ** Leaderboard *)

Lemma get_streak_streak_of (user today : Z) (c : MeditationCog) :
  get_streak user today c = (Returned (streak_of (db c) user), c).
Proof. apply get_streak_eq. Qed.

(** A user with a row has a streak of at least 1. *)
Lemma streak_of_pos (table : gset Row) (user : Z) (day : date) :
  (user, day) ∈ table -> 1 <= streak_of table user.
Proof.
  intros Hin%elem_of_select_dates_desc. unfold streak_of.
  destruct (select_dates_desc user table) as [|first rest];
    [by apply elem_of_nil in Hin | apply streak_loop_ge].
Qed.

Lemma dict_set_fresh (key value : Z) (d : list (Z * Z)) :
  key ∉ d.*1 -> dict_set key value d = d ++ [(key, value)].
Proof.
  induction d as [|[k v] d IH]; cbn; [done|]. intros Hfresh.
  apply not_elem_of_cons in Hfresh as [Hne Hfresh].
  destruct (Z.eqb_spec k key); [done|]. by rewrite IH.
Qed.

(** With distinct keys, [dict(items)] keeps the items as they come. *)
Lemma dict_of_items_distinct (items : list (Z * Z)) :
  NoDup items.*1 -> dict_of_items items = items.
Proof.
  unfold dict_of_items.
  enough (Hgen : forall acc, NoDup (acc ++ items).*1 ->
            fold_left (fun d item => dict_set item.1 item.2 d) items acc
            = acc ++ items) by apply (Hgen []).
  induction items as [|[k v] items IH]; intros acc Hnodup; cbn.
  { by rewrite app_nil_r. }
  rewrite dict_set_fresh.
  - rewrite IH; rewrite <- app_assoc; [done|]. done.
  - rewrite fmap_app in Hnodup. apply NoDup_app in Hnodup as (_ & Hsep & _).
    intros Hin. apply (Hsep k Hin). by left.
Qed.

Lemma insert_by_streak_Permutation (item : Z * Z) (sorted : list (Z * Z)) :
  insert_by_streak item sorted ≡ₚ item :: sorted.
Proof.
  induction sorted as [|other rest IH]; cbn; [done|].
  destruct (_ <? _); [|done]. by rewrite IH, Permutation_swap.
Qed.

Lemma sorted_by_streak_desc_Permutation (items : list (Z * Z)) :
  sorted_by_streak_desc items ≡ₚ items.
Proof.
  unfold sorted_by_streak_desc.
  induction items as [|item items IH]; cbn [fold_right]; [done|].
  by rewrite insert_by_streak_Permutation, IH.
Qed.

Lemma insert_by_streak_sorted (item : Z * Z) (sorted : list (Z * Z)) :
  StronglySorted by_streak_desc sorted ->
  StronglySorted by_streak_desc (insert_by_streak item sorted).
Proof.
  induction 1 as [|other rest Hsorted IH Hall]; cbn; [repeat constructor|].
  destruct (Z.ltb_spec item.2 other.2) as [Hlt | Hge].
  - constructor; [done|]. rewrite insert_by_streak_Permutation.
    constructor; [unfold by_streak_desc; lia | done].
  - constructor; [by constructor|]. constructor; [done|].
    eapply Forall_impl; [exact Hall|]. unfold by_streak_desc. cbn. lia.
Qed.

Lemma sorted_by_streak_desc_sorted (items : list (Z * Z)) :
  StronglySorted by_streak_desc (sorted_by_streak_desc items).
Proof.
  unfold sorted_by_streak_desc.
  induction items as [|item items IH]; cbn [fold_right]; [constructor|].
  by apply insert_by_streak_sorted.
Qed.

(** The sort is stable: the items of one streak value keep their order. *)
Lemma insert_by_streak_stable (n : Z) (item : Z * Z) (sorted : list (Z * Z)) :
  filter (fun i => i.2 = n) (insert_by_streak item sorted)
  = filter (fun i => i.2 = n) (item :: sorted).
Proof.
  induction sorted as [|other rest IH]; cbn; [done|].
  destruct (Z.ltb_spec item.2 other.2) as [Hlt | Hge]; [|done].
  rewrite !filter_cons, IH, !filter_cons.
  repeat case_decide; try done; lia.
Qed.

Lemma sorted_by_streak_desc_stable (n : Z) (items : list (Z * Z)) :
  filter (fun i => i.2 = n) (sorted_by_streak_desc items)
  = filter (fun i => i.2 = n) items.
Proof.
  unfold sorted_by_streak_desc.
  induction items as [|item items IH]; cbn [fold_right]; [done|].
  by rewrite insert_by_streak_stable, !filter_cons, IH.
Qed.

(** The loop, when every user is new to the dict and has a streak. *)
Lemma all_streaks_loop_distinct (today : Z) (c : MeditationCog)
    (user_ids : list Z) :
  forall streaks : list (Z * Z),
    NoDup (streaks.*1 ++ user_ids) ->
    (forall user, user ∈ user_ids -> 1 <= streak_of (db c) user) ->
    all_streaks_loop user_ids today streaks c
    = (Returned (streaks ++ ((fun user => (user, streak_of (db c) user))
                               <$> user_ids)), c).
Proof.
  induction user_ids as [|user user_ids IH]; intros streaks Hnodup Hpos; cbn.
  { by rewrite app_nil_r. }
  cog_unfold. rewrite get_streak_streak_of.
  assert (Hone : 1 <= streak_of (db c) user) by (apply Hpos; by left).
  replace (0 <? streak_of (db c) user) with true
    by (symmetry; apply Z.ltb_lt; lia).
  pose proof Hnodup as (_ & Hsep & _)%NoDup_app.
  rewrite dict_set_fresh by (intros Hin; apply (Hsep user Hin); by left).
  rewrite IH.
  - by rewrite <- app_assoc.
  - rewrite fmap_app. cbn. by rewrite <- app_assoc.
  - intros u Hu. apply Hpos. by right.
Qed.

(** X9.  On the answer of the [SELECT DISTINCT], [get_all_streaks] lists
    every user of the table exactly once, each with the streak
    [get_streak] gives, which is at least 1 (the [streak > 0] test never
    drops anyone); the list is in descending order of streak, and users
    with equal streaks stay in the order the query returned them. *)
Theorem get_all_streaks_board (user_ids : list Z) (today : Z) (c : MeditationCog) :
  distinct_users_of (db c) user_ids ->
  exists board : list (Z * Z),
    get_all_streaks user_ids today c = (Returned board, c) /\
    board.*1 ≡ₚ user_ids /\
    (forall user n, (user, n) ∈ board <->
                    (exists day, (user, day) ∈ db c) /\
                    get_streak user today c = (Returned n, c)) /\
    (forall item, item ∈ board -> 1 <= item.2) /\
    StronglySorted by_streak_desc board /\
    (forall n, filter (fun i => i.2 = n) board
               = filter (fun i => i.2 = n)
                   ((fun user => (user, streak_of (db c) user)) <$> user_ids)).
Proof.
  intros [Hnodup Husers].
  set (items := (fun user => (user, streak_of (db c) user)) <$> user_ids).
  assert (Hkeys : items.*1 = user_ids).
  { unfold items. rewrite <- list_fmap_compose. apply list_fmap_id. }
  assert (Hpos : forall user, user ∈ user_ids -> 1 <= streak_of (db c) user).
  { intros user [day Hday]%Husers. by eapply streak_of_pos. }
  exists (sorted_by_streak_desc items).
  assert (Hperm := sorted_by_streak_desc_Permutation items).
  split_and!.
  - unfold get_all_streaks; cog_unfold.
    rewrite (all_streaks_loop_distinct today c user_ids []) by done.
    cbn -[dict_of_items sorted_by_streak_desc]. fold items.
    rewrite dict_of_items_distinct; [done|].
    by rewrite Hperm, Hkeys.
  - by rewrite Hperm, Hkeys.
  - intros user n. rewrite Hperm, get_streak_streak_of. unfold items.
    rewrite list_elem_of_fmap. split.
    + intros (u & [= -> ->] & Hu). split; [by apply Husers | done].
    + intros [Hu%Husers [= <-]]. by exists user.
  - intros item. rewrite Hperm. unfold items. rewrite list_elem_of_fmap.
    intros (u & -> & Hu). by apply Hpos.
  - apply sorted_by_streak_desc_sorted.
  - intros n. apply sorted_by_streak_desc_stable.
Qed.

(** ** Posting scheduler: the whole tick *)

Global Instance delivered_dec (w : Tick) : Decision (delivered w).
Proof. unfold delivered. apply _. Defined.

(** [should_post] answers [True] exactly when a recovery post is due; an
    answer [False] leaves the cog as it was, and no answer touches more
    than [was_first_post]. *)
Lemma should_post_due (now : datetime) (c : MeditationCog) :
  exists (b : bool) (c' : MeditationCog),
    should_post now c = (Returned b, c') /\
    (b = true <-> recovery_due now (settings c)) /\
    (b = false -> c' = c) /\
    (was_first_post (settings c') = true ->
     was_first_post (settings c) = true \/ last_post_time (settings c) = None) /\
    daily_message (settings c') = daily_message (settings c) /\
    channel_id (settings c') = channel_id (settings c) /\
    last_post_time (settings c') = last_post_time (settings c) /\
    db c' = db c /\ effects c' = effects c /\
    _post_lock c' = _post_lock c /\
    _last_post_attempt c' = _last_post_attempt c.
Proof.
  unfold recovery_due.
  destruct (last_post_time (settings c)) as [last_post|] eqn:Hlast.
  2:{ rewrite should_post_uninitialized by done.
      do 2 eexists. split_and!; [done | done | done | by right | done..]. }
  pose proof (crossed_target_reflect now last_post) as Hcross.
  destruct (was_first_post (settings c)) eqn:Hflag.
  - rewrite (should_post_first_eq c now last_post Hlast Hflag).
    destruct (_ && _); do 2 eexists;
      (split_and!; [done | by rewrite <- Hcross | done | by left | done..]).
  - rewrite (should_post_steady_eq c now last_post Hlast Hflag).
    do 2 eexists. split_and!; [done | | done | cbn; congruence | done..].
    unfold total_seconds_lt, total_seconds_gt, dt_sub.
    destruct thresholds_in_us as (-> & -> & _).
    rewrite andb_true_iff, negb_true_iff, orb_true_iff, Z.ltb_ge, Z.ltb_lt.
    by rewrite Hcross.
Qed.

(** Everything [post_daily_message] does, case by case. *)
Lemma post_daily_message_table (w : Tick) (c : MeditationCog) (ch : Z) :
  channel_id (settings c) = Some ch ->
  exists c' : MeditationCog,
    post_daily_message w c = (Returned tt, c') /\
    effects c' = effects c ++ sent_effects w (settings c) ch /\
    settings c' = (if decide (delivered w)
                   then set_last_post_time (Some (post_now w)) (settings c)
                   else settings c) /\
    _last_post_attempt c' = _last_post_attempt c /\
    _post_lock c' = _post_lock c /\ db c' = db c.
Proof.
  intros Hch.
  assert (Hd : delivered w <->
               channel_found w = true /\
               (fails_at w = None \/ fails_at w = Some StepSave)) by done.
  unfold post_daily_message, outside, sent_effects. cog_unfold. rewrite Hch.
  destruct (channel_found w) eqn:Hfound.
  2:{ eexists. split_and!; [done | by rewrite app_nil_r | | done..].
      case_decide as Hyes; [|done]. apply Hd in Hyes as [? _]. done. }
  destruct (fails_at w) as [[]|] eqn:Hfail; cbn; eexists;
    (split_and!; [reflexivity | cbn; by rewrite <- ?app_assoc, ?app_nil_r
                 | | done..]);
    case_decide as Hyes; cbn; try done.
  - apply Hd in Hyes as [_ [? | ?]]; done.
  - apply Hd in Hyes as [_ [? | ?]]; done.
  - apply Hd in Hyes as [_ [? | ?]]; done.
  - destruct Hyes. apply Hd. split; [done | by right].
  - destruct Hyes. apply Hd. split; [done | by left].
Qed.

(** The [except] branch of [daily_post] is never taken: nothing under
    it lets an exception out. *)
Lemma daily_post_never_errors (w : Tick) (c : MeditationCog) :
  fst (daily_post w c) <> Returned TickError.
Proof.
  unfold daily_post; cog_unfold.
  destruct (_post_lock c); [done|].
  cbn [settings set_post_lock _last_post_attempt].
  destruct (channel_id (settings c)); cbn; [|done].
  destruct (rate_limited _ _); cbn; [done|].
  set (c1 := set_last_post_attempt _ _).
  destruct (_ && _).
  - by destruct (post_daily_message_returns w c1) as (c2 & -> & _).
  - destruct (should_post_frame (tick_now w) c1) as (b & c2 & -> & _).
    destruct b; [|done].
    by destruct (post_daily_message_returns w c2) as (c3 & -> & _).
Qed.

(** One execution of [daily_post], in full. *)
Lemma daily_post_full (w : Tick) (c : MeditationCog) :
  exists (r : tick_result) (c' : MeditationCog),
    daily_post w c = (Returned r, c') /\
    r <> TickError /\
    db c' = db c /\ _post_lock c' = _post_lock c /\
    channel_id (settings c') = channel_id (settings c) /\
    daily_message (settings c') = daily_message (settings c) /\
    (passed_rate_limit r = false -> c' = c) /\
    (passed_rate_limit r = true ->
     (r = ExactTimePost <-> exact_minute (tick_now w)) /\
     (r = RecoveryPost <->
      ~ exact_minute (tick_now w) /\ recovery_due (tick_now w) (settings c)) /\
     (r = NoPostNeeded -> settings c' = settings c /\ effects c' = effects c) /\
     (r = ExactTimePost ->
      was_first_post (settings c') = was_first_post (settings c)) /\
     (was_first_post (settings c') = true ->
      was_first_post (settings c) = true \/ last_post_time (settings c) = None) /\
     (attempted_post r = true ->
      exists ch : Z,
        channel_id (settings c) = Some ch /\
        effects c' = effects c ++ sent_effects w (settings c') ch /\
        last_post_time (settings c')
        = if decide (delivered w) then Some (post_now w)
          else last_post_time (settings c))).
Proof.
  pose proof (daily_post_never_errors w c) as Hnoerr.
  destruct (daily_post_step w c) as (r & c' & Heq & Hstep).
  destruct Hstep as [[Hskip ->] | (Hpass & Hlock & Hch & Hrate & _ & Hlock' & _)].
  { exists r, c. rewrite Heq in Hnoerr.
    split_and!; [done | by intros -> | done.. | by rewrite Hskip]. }
  clear r c' Heq Hpass Hlock' Hnoerr.
  rewrite (daily_post_past_check w c Hlock Hch Hrate).
  destruct (channel_id (settings c)) as [ch|] eqn:Hchan; [clear Hch|done].
  set (c1 := set_last_post_attempt _ _).
  pose proof (exact_minute_reflect (tick_now w)) as Hexact.
  unfold post_decision; cog_unfold.
  destruct (_ && _).
  - assert (Hx : exact_minute (tick_now w)) by (by apply Hexact).
    destruct (post_daily_message_table w c1 ch Hchan)
      as (c2 & -> & He & Hs & _ & _ & Hdb).
    do 2 eexists. split; [reflexivity|]. cbn. rewrite Hs, Hdb, Hlock, He.
    split_and!; [done | done | done | by case_decide | by case_decide | done |].
    intros _.
    split_and!; [done | split; [done | by intros [? _]] | done
                 | by case_decide | by case_decide; [left|left] |].
    intros _. exists ch. split_and!; [done | | by case_decide].
    unfold sent_effects. by case_decide.
  - assert (Hx : ~ exact_minute (tick_now w)).
    { intros Hx. apply Hexact in Hx. discriminate. }
    destruct (should_post_due (tick_now w) c1)
      as (b & c2 & -> & Hb & Hsame & Hflag & Hmsg & Hch2 & Hlast2 & Hdb2 & He2
          & _).
    destruct b.
    + assert (Hdue : recovery_due (tick_now w) (settings c)) by (by apply Hb).
      assert (Hchan2 : channel_id (settings c2) = Some ch) by (by rewrite Hch2).
      destruct (post_daily_message_table w c2 ch Hchan2)
        as (c3 & -> & He & Hs & _ & _ & Hdb).
      do 2 eexists. split; [reflexivity|]. cbn.
      rewrite Hs, Hdb, Hdb2, Hlock, He, He2.
      split_and!; [done | done | done | by case_decide | by case_decide | done |].
      intros _.
      split_and!; [split; [done | by intros ?] | done | done | done
                   | by case_decide | ].
      intros _. exists ch. split_and!; [done | | by case_decide].
      unfold sent_effects. case_decide; cbn; by rewrite ?Hmsg.
    + rewrite (Hsame eq_refl).
      do 2 eexists. split; [reflexivity|]. cbn. rewrite Hlock.
      split_and!; [done | done | done | done | done | done |].
      intros _.
      split_and!; [split; [done | by intros ?] | | done | done | by left | done].
      split; [done|]. intros [_ Hdue]. apply Hb in Hdue. discriminate.
Qed.

(** A tick with the lock free, a channel set and no recent attempt gets
    past the rate-limit check. *)
Lemma daily_post_passes (w : Tick) (c : MeditationCog) :
  _post_lock c = false -> channel_id (settings c) <> None ->
  rate_limited (tick_now w) (_last_post_attempt c) = false ->
  exists (r : tick_result) (c' : MeditationCog),
    daily_post w c = (Returned r, c') /\ passed_rate_limit r = true.
Proof.
  intros Hlock Hch Hrate.
  destruct (daily_post_step w c) as (r & c' & Heq & Hstep).
  exists r, c'. split; [done|].
  destruct Hstep as [[Hskip ->] | [Hpass _]]; [|done].
  revert Heq. unfold daily_post; cog_unfold. rewrite Hlock.
  cbn [settings set_post_lock _last_post_attempt].
  destruct (channel_id (settings c)); [clear Hch|done]. cbn.
  rewrite Hrate; cbn. set (c1 := set_last_post_attempt _ _).
  destruct (_ && _).
  - destruct (post_daily_message_returns w c1) as (c2 & -> & _).
    by intros [= <- _].
  - destruct (should_post_frame (tick_now w) c1) as (b & c2 & -> & _).
    destruct b; [|by intros [= <- _]].
    destruct (post_daily_message_returns w c2) as (c3 & -> & _).
    by intros [= <- _].
Qed.

(** X10.  The decision table of a tick.  It is skipped when the lock is
    held, else when no channel is set, else when the last attempt is less
    than 300 seconds back.  Otherwise: in the 07:30 minute it posts,
    whatever [last_post_time] and [was_first_post] say, and leaves
    [was_first_post] alone; outside that minute it posts exactly when a
    recovery post is due, and else does nothing but record the attempt. *)
Theorem tick_decision_table (w : Tick) (c : MeditationCog) :
  exists (r : tick_result) (c' : MeditationCog),
    daily_post w c = (Returned r, c') /\
    (_post_lock c = true -> r = SkippedLockHeld) /\
    (_post_lock c = false -> channel_id (settings c) = None ->
     r = SkippedNoChannel) /\
    (_post_lock c = false -> channel_id (settings c) <> None ->
     rate_limited (tick_now w) (_last_post_attempt c) = true ->
     r = SkippedRateLimit) /\
    (_post_lock c = false -> channel_id (settings c) <> None ->
     rate_limited (tick_now w) (_last_post_attempt c) = false ->
     (exact_minute (tick_now w) ->
      r = ExactTimePost /\
      was_first_post (settings c') = was_first_post (settings c)) /\
     (~ exact_minute (tick_now w) ->
      recovery_due (tick_now w) (settings c) -> r = RecoveryPost) /\
     (~ exact_minute (tick_now w) ->
      ~ recovery_due (tick_now w) (settings c) ->
      r = NoPostNeeded /\ settings c' = settings c /\ effects c' = effects c)).
Proof.
  destruct (daily_post_full w c) as (r & c' & Heq & _ & _ & _ & _ & _ & _ & Htable).
  exists r, c'. split; [done|].
  split_and!.
  - intros Hlock. revert Heq. unfold daily_post; cog_unfold. rewrite Hlock.
    by intros [= <- _].
  - intros Hlock Hch. revert Heq. unfold daily_post; cog_unfold.
    rewrite Hlock. cbn [settings set_post_lock]. rewrite Hch.
    by intros [= <- _].
  - intros Hlock Hch Hrate. revert Heq. unfold daily_post; cog_unfold.
    rewrite Hlock. cbn [settings set_post_lock _last_post_attempt].
    destruct (channel_id (settings c)); [|done]. cbn. rewrite Hrate.
    by intros [= <- _].
  - intros Hlock Hch Hrate.
    destruct (daily_post_passes w c Hlock Hch Hrate) as (r0 & c0 & Heq0 & Hpass).
    rewrite Heq in Heq0. injection Heq0 as <- <-.
    destruct (Htable Hpass) as (Hexact & Hrecovery & Hnone & Hflag & _).
    split_and!.
    + intros Hx. apply Hexact in Hx. split; [done | by apply Hflag].
    + intros Hx Hdue. by apply Hrecovery.
    + intros Hx Hdue.
      assert (r = NoPostNeeded) as ->; [|split; [done | by apply Hnone]].
      destruct r; try done.
      * destruct Hx. by apply Hexact.
      * destruct Hdue. by apply Hrecovery.
Qed.

(** X11.  What a tick never does.  It never raises and never ends in its
    [except] branch; it never touches the table, the channel or the
    message text; it leaves the lock as it found it; it only adds to what
    was sent; and the only values it gives [last_post_time] are the old
    one and the time read after the send. *)
Theorem tick_frame (w : Tick) (c : MeditationCog) :
  exists (r : tick_result) (c' : MeditationCog),
    daily_post w c = (Returned r, c') /\
    r <> TickError /\
    db c' = db c /\
    _post_lock c' = _post_lock c /\
    channel_id (settings c') = channel_id (settings c) /\
    daily_message (settings c') = daily_message (settings c) /\
    (exists sent : list Effect, effects c' = effects c ++ sent) /\
    (last_post_time (settings c') = last_post_time (settings c) \/
     last_post_time (settings c') = Some (post_now w)) /\
    (attempted_post r = false ->
     settings c' = settings c /\ effects c' = effects c).
Proof.
  destruct (daily_post_full w c)
    as (r & c' & Heq & Herr & Hdb & Hlock & Hch & Hmsg & Hskip & Htable).
  exists r, c'. split_and!; [done..| | |].
  - destruct (passed_rate_limit r) eqn:Hpass;
      [|rewrite (Hskip eq_refl); exists []; by rewrite app_nil_r].
    destruct (Htable eq_refl) as (_ & _ & Hnone & _ & _ & Hpost).
    destruct (attempted_post r) eqn:Hatt.
    + destruct (Hpost eq_refl) as (ch & _ & -> & _). by eexists.
    + assert (r = NoPostNeeded) as -> by (by destruct r).
      destruct (Hnone eq_refl) as [_ ->]. exists []. by rewrite app_nil_r.
  - destruct (passed_rate_limit r) eqn:Hpass;
      [|rewrite (Hskip eq_refl); by left].
    destruct (Htable eq_refl) as (_ & _ & Hnone & _ & _ & Hpost).
    destruct (attempted_post r) eqn:Hatt.
    + destruct (Hpost eq_refl) as (ch & _ & _ & ->).
      case_decide; [by right | by left].
    + assert (r = NoPostNeeded) as -> by (by destruct r).
      destruct (Hnone eq_refl) as [-> _]. by left.
  - intros Hatt. destruct (passed_rate_limit r) eqn:Hpass;
      [|by rewrite (Hskip eq_refl)].
    destruct (Htable eq_refl) as (_ & _ & Hnone & _).
    assert (r = NoPostNeeded) as -> by (by destruct r). by apply Hnone.
Qed.

(** X12.  What a posting attempt leaves behind.  [last_post_time] moves,
    to the time read after the send, exactly when the channel resolved
    and the send and both reactions went through.  If a reaction raises,
    the message is already out while [last_post_time] stays: the post will
    be made again.  Settings are saved only after everything before went
    through, and then they are the settings the cog ends with. *)
Theorem post_attempt_outcome (w : Tick) (c c' : MeditationCog) (r : tick_result) :
  daily_post w c = (Returned r, c') ->
  attempted_post r = true ->
  exists ch : Z,
    channel_id (settings c) = Some ch /\
    effects c' = effects c ++ sent_effects w (settings c') ch /\
    (delivered w -> last_post_time (settings c') = Some (post_now w)) /\
    (~ delivered w ->
     last_post_time (settings c') = last_post_time (settings c)) /\
    (channel_found w = true ->
     fails_at w = Some StepReact1 \/ fails_at w = Some StepReact2 ->
     Send ch (daily_message (settings c)) ∈ effects c' /\
     last_post_time (settings c') = last_post_time (settings c)) /\
    (forall s, SaveSettings s ∈ sent_effects w (settings c') ch ->
               s = settings c' /\ channel_found w = true /\ fails_at w = None).
Proof.
  intros Heq Hatt.
  destruct (daily_post_full w c)
    as (r0 & c0 & Heq0 & _ & _ & _ & _ & Hmsg & _ & Htable).
  rewrite Heq in Heq0. injection Heq0 as <- <-.
  destruct (Htable ltac:(by destruct r)) as (_ & _ & _ & _ & _ & Hpost).
  destruct (Hpost Hatt) as (ch & Hch & He & Hlast).
  exists ch. split_and!; [done | done | | | |].
  - intros Hd. by rewrite Hlast, decide_True.
  - intros Hd. by rewrite Hlast, decide_False.
  - intros Hfound Hfail.
    assert (Hnot : ~ delivered w).
    { intros [_ [Hnone | Hsave]]; destruct Hfail; congruence. }
    split; [|by rewrite Hlast, decide_False].
    rewrite He, <- Hmsg. unfold sent_effects. rewrite Hfound.
    apply elem_of_app. right. destruct Hfail as [-> | ->]; by left.
  - intros s. unfold sent_effects.
    destruct (channel_found w) eqn:Hfound; [|by intros ?%elem_of_nil].
    destruct (fails_at w) as [[]|] eqn:Hfail;
      rewrite ?elem_of_cons, elem_of_nil;
      try (intros Hin; decompose [or] Hin; done).
    intros Hin; decompose [or] Hin; try done.
    match goal with Hs : SaveSettings _ = SaveSettings _ |- _ =>
      injection Hs as -> end.
    split; [|done].
    assert (Hd : delivered w) by (split; [done | by left]).
    rewrite decide_True in Hlast by done.
    destruct (settings c'); cbn in *. by rewrite Hlast.
Qed.

(** ** Posting scheduler: the states over a run of ticks *)

Lemma run_cons_snd (w : Tick) (ws : list Tick) (c : MeditationCog) :
  (run (w :: ws) c).2 = (run ws (daily_post w c).2).2.
Proof.
  cbn [run]. destruct (daily_post w c) as [r c']. cbn [fst snd].
  by destruct (run ws c').
Qed.

(** One tick never unsets [last_post_time], and raises [was_first_post]
    only from the state without [last_post_time]. *)
Lemma daily_post_state_step (w : Tick) (c : MeditationCog) :
  let c' := (daily_post w c).2 in
  (last_post_time (settings c) <> None ->
   last_post_time (settings c') <> None) /\
  (was_first_post (settings c') = true ->
   was_first_post (settings c) = true \/ last_post_time (settings c) = None).
Proof.
  destruct (daily_post_full w c)
    as (r & c' & -> & _ & _ & _ & _ & _ & Hskip & Htable). cbn [snd].
  destruct (passed_rate_limit r) eqn:Hpass;
    [|rewrite (Hskip eq_refl); split; [done | by left]].
  destruct (Htable eq_refl) as (_ & _ & Hnone & _ & Hflag & Hpost).
  split; [|done].
  destruct (attempted_post r) eqn:Hatt.
  - destruct (Hpost eq_refl) as (ch & _ & _ & ->). by case_decide.
  - assert (r = NoPostNeeded) as -> by (by destruct r).
    by destruct (Hnone eq_refl) as [-> _].
Qed.

(** X13.  The scheduler's states only move forward.  Over any run of
    ticks, a [last_post_time] that is set stays set, and once it is set
    with [was_first_post] false (the steady state) the flag stays
    false. *)
Theorem scheduler_states_forward (ws : list Tick) (c : MeditationCog) :
  last_post_time (settings c) <> None ->
  last_post_time (settings (run ws c).2) <> None /\
  (was_first_post (settings c) = false ->
   was_first_post (settings (run ws c).2) = false).
Proof.
  revert c. induction ws as [|w ws IH]; intros c Hlast; [done|].
  rewrite run_cons_snd.
  destruct (daily_post_state_step w c) as [Hkeep Hflag].
  destruct (IH (daily_post w c).2 (Hkeep Hlast)) as [IHlast IHflag].
  split; [done|]. intros Hsteady. apply IHflag.
  destruct (was_first_post (settings (daily_post w c).2)) eqn:Hnew; [|done].
  destruct (Hflag eq_refl); congruence.
Qed.

(** ** Configuration commands *)

(** X14.  Changing the daily message orphans the prompts already
    posted: as soon as [set_daily_message] has run, whether or not its
    save and its reply went through, reactions put on or taken off a
    message that carries the old text change nothing. *)
Theorem old_prompts_orphaned (ctx : Context) (message : string)
    (c : MeditationCog) (env : ReactionEnv) (payload : Payload)
    (prompt : Message) :
  fetch_message env = Some prompt ->
  content prompt = daily_message (settings c) ->
  message <> daily_message (settings c) ->
  let c1 := (set_daily_message ctx message c).2 in
  daily_message (settings c1) = message /\
  on_raw_reaction_add env payload c1 = (Returned tt, c1) /\
  on_raw_reaction_remove env payload c1 = (Returned tt, c1).
Proof.
  intros Hfetch Hold Hnew c1.
  assert (Hmsg : daily_message (settings c1) = message).
  { subst c1. unfold set_daily_message, command_outside; cog_unfold.
    repeat case_decide; done. }
  assert (Hnot : not_meditation_message env prompt (settings c1) = true).
  { unfold not_meditation_message. rewrite Hmsg, Hold.
    apply orb_true_iff. right. apply negb_true_iff, String.eqb_neq. congruence. }
  split_and!; [done | |].
  - unfold on_raw_reaction_add; cog_unfold.
    destruct (_ =? _); [done|]. by rewrite Hfetch, Hnot.
  - unfold on_raw_reaction_remove; cog_unfold. by rewrite Hfetch, Hnot.
Qed.

(** X15.  On a cog that has never posted, the first tick after
    [set_channel] posts at once, at any time of day, and into the channel
    the command was given in. *)
Theorem set_channel_starts_posting (ctx : Context) (c : MeditationCog)
    (w : Tick) :
  _post_lock c = false ->
  last_post_time (settings c) = None ->
  rate_limited (tick_now w) (_last_post_attempt c) = false ->
  let c1 := (set_channel ctx c).2 in
  exists (r : tick_result) (c2 : MeditationCog),
    daily_post w c1 = (Returned r, c2) /\
    attempted_post r = true /\
    (channel_found w = true -> fails_at w <> Some StepSend ->
     Send (ctx_channel_id ctx) (daily_message (settings c)) ∈ effects c2).
Proof.
  intros Hlock Hlast Hrate c1.
  assert (Hc1 : settings c1
                = update_channel_id (Some (ctx_channel_id ctx)) (settings c) /\
                _post_lock c1 = _post_lock c /\
                _last_post_attempt c1 = _last_post_attempt c).
  { subst c1. unfold set_channel, command_outside; cog_unfold.
    repeat case_decide; done. }
  destruct Hc1 as (Hs & Hl & Ha).
  assert (Hch : channel_id (settings c1) <> None) by (by rewrite Hs).
  rewrite <- Hl in Hlock. rewrite <- Ha in Hrate.
  destruct (daily_post_passes w c1 Hlock Hch Hrate) as (r & c2 & Heq & Hpass).
  destruct (daily_post_full w c1)
    as (r0 & c0 & Heq0 & _ & _ & _ & _ & Hmsg & _ & Htable).
  rewrite Heq in Heq0. injection Heq0 as <- <-.
  destruct (Htable Hpass) as (Hexact & Hrecovery & _ & _ & _ & Hpost).
  assert (Hatt : attempted_post r = true).
  { destruct (decide (exact_minute (tick_now w))) as [Hx | Hx].
    - by apply Hexact in Hx as ->.
    - assert (r = RecoveryPost) as ->; [|done].
      apply Hrecovery. split; [done|].
      unfold recovery_due. by rewrite Hs; cbn; rewrite Hlast. }
  exists r, c2. split_and!; [done | done |].
  intros Hfound Hsend.
  destruct (Hpost Hatt) as (ch & Hchan & -> & _).
  rewrite Hs in Hchan. injection Hchan as <-.
  assert (Htext : daily_message (settings c2) = daily_message (settings c))
    by (by rewrite Hmsg, Hs).
  apply elem_of_app. right. unfold sent_effects. rewrite Hfound, Htext.
  destruct (fails_at w) as [[]|]; try done; by left.
Qed.

(** ** The further properties at concrete inputs *)

(** X1 at 07:00 UTC and 08:00 UTC of one date. *)
Lemma logical_day_monotone_witness :
  instant nine_oclock_plus_two <= instant (utc 739000 8 0 0) /\
  get_meditation_date nine_oclock_plus_two
  <= get_meditation_date (utc 739000 8 0 0).
Proof.
  assert (Hle : instant nine_oclock_plus_two <= instant (utc 739000 8 0 0)).
  { vm_compute. discriminate. }
  split; [exact Hle|].
  exact (logical_day_monotone nine_oclock_plus_two (utc 739000 8 0 0) Hle).
Defined.

(** X2 at 07:00 UTC on date 739000, which lies in the window of day
    738999. *)
Lemma logical_day_window_witness :
  get_meditation_date nine_oclock_plus_two = 738999.
Proof.
  apply (proj2 (logical_day_window nine_oclock_plus_two 738999)).
  split; vm_compute; [discriminate | reflexivity].
Defined.

(** X3 at user 7 of [table_gap]: the streak 3 ends before day 97. *)
Lemma get_streak_meaning_witness :
  exists n : Z,
    get_streak 7 0 cog_gap = (Returned n, cog_gap) /\ n = 3 /\
    exists latest : date, (7, latest - n) ∉ db cog_gap.
Proof.
  destruct (get_streak_meaning 7 0 cog_gap) as (n & Heq & _ & _ & Hrun).
  assert (Hn : n = 3).
  { vm_compute in Heq. injection Heq as <-. reflexivity. }
  exists n. split; [exact Heq|]. split; [exact Hn|].
  assert (Hpos : 0 < n) by (rewrite Hn; reflexivity).
  destruct (Hrun Hpos) as (latest & _ & _ & _ & Hstop).
  exists latest. exact Hstop.
Defined.

Lemma prompt_check_in_gap (env : ReactionEnv) (payload : Payload)
    (message : Message) :
  bot_user env = 1 -> fetch_message env = Some message ->
  author message = 1 -> content message = daily_message default_settings ->
  is_meditation_emoji (emoji payload) = true ->
  check_in_event env payload message cog_gap.
Proof.
  intros Hbot Hfetch Hauthor Hcontent Hemoji.
  unfold check_in_event, not_meditation_message.
  by rewrite Hbot, Hauthor, Hcontent.
Qed.

(** X5 at user 7 of [table_gap] while user 8 checks in. *)
Lemma streak_untouched_by_others_witness :
  7 <> user_id reaction_by_8 /\
  (get_streak 7 0 (on_raw_reaction_add early_reaction_env reaction_by_8 cog_gap).2).1
  = (get_streak 7 0 cog_gap).1.
Proof.
  assert (Hother : 7 <> user_id reaction_by_8).
  { intros Heq. vm_compute in Heq. discriminate. }
  split; [exact Hother|].
  exact (proj1 (streak_untouched_by_others early_reaction_env reaction_by_8
                  cog_gap 7 0 Hother)).
Defined.

(** X6 at user 7 of [table_gap], latest day 100 and streak 3, checking in
    on the message of day 101: the streak becomes 4. *)
Lemma check_in_streak_witness :
  get_streak 7 0 cog_gap = (Returned 3, cog_gap) /\
  get_streak 7 0 (on_raw_reaction_add reaction_env_day_101 reaction_by_7 cog_gap).2
  = (Returned (3 + 1),
     (on_raw_reaction_add reaction_env_day_101 reaction_by_7 cog_gap).2).
Proof.
  assert (Hevent : check_in_event reaction_env_day_101 reaction_by_7
                     prompt_day_101 cog_gap).
  { apply prompt_check_in_gap; reflexivity. }
  assert (Hbot : user_id reaction_by_7 <> bot_user reaction_env_day_101).
  { intros Heq. vm_compute in Heq. discriminate. }
  assert (Hage : days (dt_sub (reaction_now reaction_env_day_101)
                              (created_at prompt_day_101)) <= 2).
  { vm_compute. discriminate. }
  assert (Hstreak : get_streak 7 0 cog_gap = (Returned 3, cog_gap)).
  { vm_compute. reflexivity. }
  assert (Hin : (7, 100) ∈ db cog_gap).
  { cbn [db cog_gap]. unfold table_gap.
    rewrite !elem_of_union, !elem_of_singleton. tauto. }
  assert (Hmax : forall d, (7, d) ∈ db cog_gap -> d <= 100).
  { intros d. cbn [db cog_gap]. unfold table_gap.
    rewrite !elem_of_union, !elem_of_singleton.
    intros [[[[[= ->] | [= ->]] | [= ->]] | [= ->]] | [= ?]]; try lia. }
  split; [exact Hstreak|].
  destruct (check_in_streak reaction_env_day_101 reaction_by_7 prompt_day_101
              cog_gap 0 Hevent Hbot Hage) as [_ Hgrow].
  destruct (Hgrow 100 3 Hin Hmax Hstreak) as (Hnext & _ & _).
  apply Hnext. vm_compute. reflexivity.
Defined.

(** X7 at user 7 reacting to [prompt_message] and withdrawing a day
    later. *)
Lemma check_in_then_withdraw_witness :
  on_raw_reaction_remove next_day_reaction_env reaction_by_7
    (on_raw_reaction_add early_reaction_env reaction_by_7 cog_never_posted).2
  = (Returned tt, cog_never_posted).
Proof.
  apply (check_in_then_withdraw early_reaction_env next_day_reaction_env
           reaction_by_7 reaction_by_7 prompt_message prompt_message).
  - apply prompt_check_in; reflexivity.
  - apply prompt_check_in; reflexivity.
  - reflexivity.
  - reflexivity.
  - intros Heq. vm_compute in Heq. discriminate.
  - vm_compute. discriminate.
  - reflexivity.
  - cbn [db cog_never_posted]. apply not_elem_of_empty.
Defined.

(** X8 at user 7 withdrawing from [prompt_message] a day after it and
    reacting again when it is nearly four days old. *)
Lemma withdraw_then_check_in_too_late_witness :
  exists c1 c2 : MeditationCog,
    on_raw_reaction_remove next_day_reaction_env reaction_by_7 cog_never_posted
    = (Returned tt, c1) /\
    on_raw_reaction_add stale_reaction_env reaction_by_7 c1 = (Returned tt, c2) /\
    (7, 739000) ∉ db c2.
Proof.
  destruct (withdraw_then_check_in_too_late next_day_reaction_env
              stale_reaction_env reaction_by_7 reaction_by_7
              prompt_message prompt_message cog_never_posted)
    as (c1 & c2 & Hremove & Hadd & _ & _ & Hgone & _).
  - apply prompt_check_in; reflexivity.
  - apply prompt_check_in; reflexivity.
  - reflexivity.
  - reflexivity.
  - reflexivity.
  - intros Heq. vm_compute in Heq. discriminate.
  - reflexivity.
  - vm_compute. reflexivity.
  - exists c1, c2. split; [exact Hremove|]. split; [exact Hadd | exact Hgone].
Defined.

(** X9 at [table_gap] with the users returned as 7, 8: user 7 with
    streak 3 comes before user 8 with streak 1. *)
Lemma get_all_streaks_board_witness :
  distinct_users_of (db cog_gap) [7; 8] /\
  get_all_streaks [7; 8] 0 cog_gap = (Returned [(7, 3); (8, 1)], cog_gap).
Proof.
  assert (Husers : distinct_users_of (db cog_gap) [7; 8]).
  { split.
    - repeat (constructor; [rewrite ?elem_of_cons, elem_of_nil; lia|]).
      constructor.
    - intros user. cbn [db cog_gap]. unfold table_gap.
      rewrite !elem_of_cons, elem_of_nil. split.
      + intros [-> | [-> | []]]; exists 100;
          rewrite !elem_of_union, !elem_of_singleton; tauto.
      + intros [day Hday]. revert Hday.
        rewrite !elem_of_union, !elem_of_singleton.
        intros [[[[[= -> _] | [= -> _]] | [= -> _]] | [= -> _]] | [= -> _]];
          tauto. }
  split; [exact Husers|].
  destruct (get_all_streaks_board [7; 8] 0 cog_gap Husers) as (board & Heq & _).
  rewrite Heq. vm_compute in Heq. injection Heq as <-. reflexivity.
Defined.

(** X10 at a first tick at 15:00: not skipped, outside the 07:30 minute,
    a post is due. *)
Lemma tick_decision_table_witness :
  exists c' : MeditationCog,
    daily_post tick_1500 cog_never_posted = (Returned RecoveryPost, c').
Proof.
  destruct (tick_decision_table tick_1500 cog_never_posted)
    as (r & c' & Heq & _ & _ & _ & Hpass).
  destruct Hpass as (_ & Hrecovery & _); [reflexivity | discriminate | reflexivity|].
  exists c'. rewrite Heq, Hrecovery; [reflexivity | | exact I].
  intros [Hh _]. vm_compute in Hh. discriminate.
Defined.

(** X12 at a first tick at 15:00 where everything goes through. *)
Lemma post_attempt_outcome_witness :
  last_post_time (settings (daily_post tick_1500 cog_never_posted).2)
  = Some (post_now tick_1500).
Proof.
  assert (Heq : daily_post tick_1500 cog_never_posted
                = (Returned RecoveryPost,
                   (daily_post tick_1500 cog_never_posted).2)).
  { vm_compute. reflexivity. }
  destruct (post_attempt_outcome tick_1500 cog_never_posted _ RecoveryPost
              Heq eq_refl) as (ch & _ & _ & Hdelivered & _).
  apply Hdelivered. split; [reflexivity | left; reflexivity].
Defined.

(** X13 at two ticks on a cog in the steady state. *)
Lemma scheduler_states_forward_witness :
  last_post_time (settings cog_steady) <> None /\
  was_first_post (settings (run [tick_1500; tick_1502] cog_steady).2) = false.
Proof.
  assert (Hlast : last_post_time (settings cog_steady) <> None) by discriminate.
  split; [exact Hlast|].
  exact (proj2 (scheduler_states_forward [tick_1500; tick_1502] cog_steady Hlast)
           eq_refl).
Defined.

(** X14 at a new message text and a reaction on the old prompt. *)
Lemma old_prompts_orphaned_witness :
  let c1 := (set_daily_message ctx_channel_42 "Breathe" cog_never_posted).2 in
  on_raw_reaction_add early_reaction_env reaction_by_7 c1 = (Returned tt, c1).
Proof.
  intros c1.
  refine (proj1 (proj2 (old_prompts_orphaned ctx_channel_42 "Breathe"
                          cog_never_posted early_reaction_env reaction_by_7
                          prompt_message eq_refl eq_refl _))).
  intros Heq. vm_compute in Heq. discriminate.
Defined.

(** X15 at a freshly installed cog, [set_channel] in channel 42, and a
    tick at 15:00. *)
Lemma set_channel_starts_posting_witness :
  exists (r : tick_result) (c2 : MeditationCog),
    daily_post tick_1500 (set_channel ctx_channel_42 cog_fresh).2
    = (Returned r, c2) /\
    Send 42 (daily_message default_settings) ∈ effects c2.
Proof.
  destruct (set_channel_starts_posting ctx_channel_42 cog_fresh tick_1500
              eq_refl eq_refl eq_refl) as (r & c2 & Heq & _ & Hsend).
  exists r, c2. split; [exact Heq|].
  apply Hsend; [reflexivity | discriminate].
Defined.
